(** * Pricing, TWAP and margin removal of the nibiru vpool / perp keepers

    A shallow embedding of
      - [x/vpool/keeper/prices.go] (GetSpotPrice, GetBaseAssetPrice, calcTwap),
      - the perp keeper's margin file (AddMargin, RemoveMargin, GetMarginRatio),
    together with the parts of [sdk.Dec], [time] and the key-value store they
    rely on.  Go's [(value, error)] returns and panics are one result type,
    [int64] arithmetic wraps, [sdk.Dec] is an integer scaled by [10^18]
    (unbounded here: the 315-bit cap of the Go type, past which its operations
    panic, is outside the model). *)

From Stdlib Require Import ZArith Lia List Sorted.
From stdpp Require Import gmap strings list fin_maps pretty.
Import ListNotations.

Local Open Scope Z_scope.

(** ** Results of Go calls *)

(** The errors the embedded functions return.  [fmt.Errorf] messages of the
    source are one constructor each. *)
Inductive Error : Type :=
  | ErrPoolNotFound                 (* vpool types.ErrPoolNotFound *)
  | ErrSnapshotNotFound             (* getSnapshot: no snapshot under the key *)
  | ErrSnapshotCounterNotFound (pair : string)
      (* "Could not find snapshot counter for pair %s" *)
  | ErrBaseReserveAtZero            (* vpool types.ErrBaseReserveAtZero *)
  | ErrQuoteReserveAtZero           (* vpool types.ErrQuoteReserveAtZero *)
  | ErrInvalidAddress               (* sdk.AccAddressFromBech32 failed *)
  | ErrInvalidMarginDenom           (* "invalid margin denom" *)
  | ErrMarginNotPositive (amount : Z)
      (* "margin must be positive, not: %v" *)
  | ErrInvalidTokenPair             (* common.NewTokenPairFromStr failed *)
  | ErrPairNotFound (pair : string) (* perp types.ErrPairNotFound, wrapped *)
  | ErrPositionNotFound             (* Positions().Get found nothing *)
  | ErrHasBadDebt
      (* "failed to remove margin; position has bad debt" *)
  | ErrNotEnoughFreeCollateral      (* "not enough free collateral" *)
  | ErrExternal (msg : string).     (* an error of an external collaborator *)

(** The panics the embedded code can raise. *)
Inductive PanicReason : Type :=
  | PanicDivisionByZero             (* math/big: division by zero *)
  | PanicZeroSizePosition.          (* panic("position with zero size") *)

Inductive Res (A : Type) : Type :=
  | Ok (a : A)
  | Err (e : Error)
  | Panic (p : PanicReason).

Arguments Ok {A} a.
Arguments Err {A} e.
Arguments Panic {A} p.

Definition bind {A B : Type} (r : Res A) (f : A -> Res B) : Res B :=
  match r with
  | Ok a => f a
  | Err e => Err e
  | Panic p => Panic p
  end.

Notation "'do' x <- r ; k" := (bind r (fun x => k))
  (at level 10, x name, r at level 100, k at level 200).

Definition isOk {A : Type} (r : Res A) : bool :=
  match r with Ok _ => true | _ => false end.

(** A Go [(value, error)] return of a collaborator that is not among the
    sources: a value or an error. *)
Inductive Ret (A : Type) : Type :=
  | Val (a : A)
  | Fail (e : Error).

Arguments Val {A} a.
Arguments Fail {A} e.

Definition ofRet {A : Type} (r : Ret A) : Res A :=
  match r with
  | Val a => Ok a
  | Fail e => Err e
  end.

(** ** int64 *)

Module Int64.

Definition modulus : Z := 2 ^ 64.
Definition half_modulus : Z := 2 ^ 63.
Definition min_signed : Z := - 2 ^ 63.
Definition max_signed : Z := 2 ^ 63 - 1.

(** Two's complement reduction into [[-2^63, 2^63)]. *)
Definition wrap (z : Z) : Z :=
  (z + half_modulus) mod modulus - half_modulus.

Definition add (a b : Z) : Z := wrap (a + b).
Definition sub (a b : Z) : Z := wrap (a - b).
Definition neg (a : Z) : Z := wrap (- a).

Definition in_range (z : Z) : Prop := min_signed <= z <= max_signed.

(** Go's [int64(x)] of a [uint64]. *)
Definition of_uint64 (n : N) : Z := wrap (Z.of_N n).

End Int64.

(** ** time.Time and time.Duration *)

Module Time.

(** A [time.Time] is its Unix time in nanoseconds; a [time.Duration] is an
    int64 count of nanoseconds. *)
Definition t : Type := Z.
Definition Duration : Type := Z.

Definition Millisecond : Duration := 1000000.

Definition UnixMilli_ns (ms : Z) : t := ms * 1000000.

(** [Time.Add]. *)
Definition Add (tm : t) (d : Duration) : t := tm + d.

(** [Time.UnixMilli]: seconds times 1000 plus the (non-negative)
    nanosecond part over 10^6, in int64. *)
Definition UnixMilli (tm : t) : Z := Int64.wrap (tm / 1000000).

End Time.

(** ** sdk.Dec *)

Module Dec.

(** [Dec{i *big.Int}]: the value is [i / 10^18]. *)
Record t : Type := mk { i : Z }.

Definition Precision : Z := 18.
Definition precisionReuse : Z := 10 ^ 18.
Definition fivePrecision : Z := precisionReuse / 2.

Definition ZeroDec : t := mk 0.
Definition OneDec : t := mk precisionReuse.
Definition NewDec (n : Z) : t := mk (n * precisionReuse).

Definition IsZero (d : t) : bool := i d =? 0.
Definition IsNegative (d : t) : bool := i d <? 0.
Definition LTE (a b : t) : bool := i a <=? i b.
Definition GTE (a b : t) : bool := i b <=? i a.
Definition LT (a b : t) : bool := i a <? i b.

Definition Add (a b : t) : t := mk (i a + i b).
Definition Sub (a b : t) : t := mk (i a - i b).
Definition Neg (a : t) : t := mk (- i a).
Definition Abs (a : t) : t := mk (Z.abs (i a)).

(** [chopPrecisionAndRound]: divide by [10^18], rounding half to even; a
    negative argument is negated, chopped and negated back. *)
Definition chopPrecisionAndRound (d : Z) : Z :=
  let a := Z.abs d in
  let quo := a / precisionReuse in
  let rem := a mod precisionReuse in
  let r :=
    if rem =? 0 then quo
    else match rem ?= fivePrecision with
         | Lt => quo
         | Gt => quo + 1
         | Eq => if Z.even quo then quo else quo + 1
         end in
  if d <? 0 then - r else r.

(** [Dec.Mul]: the product of the raw integers, chopped and rounded. *)
Definition Mul (a b : t) : t := mk (chopPrecisionAndRound (i a * i b)).

(** [Dec.MulInt64]: exact. *)
Definition MulInt64 (a : t) (n : Z) : t := mk (i a * n).

(** [Dec.Quo]: the raw numerator times [10^36], big.Int [Quo] (truncated)
    by the raw denominator, then chopped and rounded.  [big.Int.Quo] panics
    on a zero divisor. *)
Definition Quo (a b : t) : Res t :=
  if i b =? 0 then Panic PanicDivisionByZero
  else Ok (mk (chopPrecisionAndRound
                 (Z.quot (i a * precisionReuse * precisionReuse) (i b)))).

(** [Dec.QuoTruncate]: the raw numerator times [10^18], truncated
    division. *)
Definition QuoTruncate (a b : t) : Res t :=
  if i b =? 0 then Panic PanicDivisionByZero
  else Ok (mk (Z.quot (i a * precisionReuse) (i b))).

(** [Dec.QuoInt64]: big.Int [Quo] of the raw integer by the int64. *)
Definition QuoInt64 (a : t) (n : Z) : Res t :=
  if n =? 0 then Panic PanicDivisionByZero
  else Ok (mk (Z.quot (i a) n)).

End Dec.

(** ** x/vpool/types *)

Module VpoolTypes.

(** Modelled from the spec: the enum declarations are not among the
    sources; section 3 gives [Direction] and [TwapCalcOption] as below. *)
Inductive Direction : Type :=
  | Direction_ADD_TO_POOL
  | Direction_REMOVE_FROM_POOL.

Inductive TwapCalcOption : Type :=
  | TwapCalcOption_SPOT
  | TwapCalcOption_QUOTE_ASSET_SWAP
  | TwapCalcOption_BASE_ASSET_SWAP.

(** Modelled from the spec: the pool, its configuration and the reserve
    snapshot (section 3); their declarations are not among the sources. *)
Record VpoolConfig : Type := {
  TradeLimitRatio : Dec.t;
  FluctuationLimitRatio : Dec.t;
  MaxOracleSpreadRatio : Dec.t;
  MaintenanceMarginRatio : Dec.t;
  MaxLeverage : Dec.t
}.

Record Vpool : Type := {
  Pair : string;
  BaseAssetReserve : Dec.t;
  QuoteAssetReserve : Dec.t;
  SqrtDepth : Dec.t;
  Config : VpoolConfig
}.

(** The reserves of a snapshot carry the prefix [snap]: [Vpool] has fields
    of the same names. *)
Record ReserveSnapshot : Type := {
  snapQuoteAssetReserve : Dec.t;
  snapBaseAssetReserve : Dec.t;
  TimestampMs : Z;
  BlockNumber : Z
}.

(** Modelled from the spec: the swap formula behind
    [Pool.GetQuoteAmountByBaseAmount], whose file is not among the sources
    (section 4.1, getBaseAssetPrice), over a pair of reserves so that it
    applies to a pool and to a snapshot alike.  A zero amount gives zero;
    adding gives [quote - k / (base + amount)]; removing fails with
    BaseReserveAtZero when [amount >= base] and gives
    [k / (base - amount) - quote] otherwise; [k] is [base * quote].
    The division is [Dec.Quo], the one the sources use on reserves
    (GetSpotPrice) and the one the tests of the two swap functions fix:
    adding 500 to reserves of 1000 and 1000 is expected to give
    333.333333333333333333 (TestGetBaseAssetPrice, TestGetQuoteAssetPrice),
    which a truncated division does not, and adding 999555999 of quote is
    expected to give 999.998999556802663137 of base
    (TestGetBaseAmountByQuoteAmount), which neither a rounded-up division nor
    the exact amount truncated does. *)
Definition quoteAmountByBaseAmount
    (quoteReserve baseReserve : Dec.t) (dir : Direction)
    (baseAmount : Dec.t) : Res Dec.t :=
  if Dec.IsZero baseAmount then Ok Dec.ZeroDec
  else
    let invariant := Dec.Mul baseReserve quoteReserve in
    match dir with
    | Direction_ADD_TO_POOL =>
        do quoteAfter <- Dec.Quo invariant (Dec.Add baseReserve baseAmount);
        Ok (Dec.Sub quoteReserve quoteAfter)
    | Direction_REMOVE_FROM_POOL =>
        if Dec.GTE baseAmount baseReserve then Err ErrBaseReserveAtZero
        else
          do quoteAfter <- Dec.Quo invariant (Dec.Sub baseReserve baseAmount);
          Ok (Dec.Sub quoteAfter quoteReserve)
    end.

(** Modelled from the spec: the symmetric counterpart behind
    [Pool.GetBaseAmountByQuoteAmount] (section 4.1, getQuoteAssetPrice),
    failing with QuoteReserveAtZero. *)
Definition baseAmountByQuoteAmount
    (quoteReserve baseReserve : Dec.t) (dir : Direction)
    (quoteAmount : Dec.t) : Res Dec.t :=
  if Dec.IsZero quoteAmount then Ok Dec.ZeroDec
  else
    let invariant := Dec.Mul baseReserve quoteReserve in
    match dir with
    | Direction_ADD_TO_POOL =>
        do baseAfter <- Dec.Quo invariant (Dec.Add quoteReserve quoteAmount);
        Ok (Dec.Sub baseReserve baseAfter)
    | Direction_REMOVE_FROM_POOL =>
        if Dec.GTE quoteAmount quoteReserve then Err ErrQuoteReserveAtZero
        else
          do baseAfter <- Dec.Quo invariant (Dec.Sub quoteReserve quoteAmount);
          Ok (Dec.Sub baseAfter baseReserve)
    end.

(** Modelled from the spec: the two pool methods prices.go calls, the
    formulas above on the pool's reserves. *)
Definition GetQuoteAmountByBaseAmount
    (p : Vpool) (dir : Direction) (baseAmount : Dec.t) : Res Dec.t :=
  quoteAmountByBaseAmount (QuoteAssetReserve p) (BaseAssetReserve p)
                          dir baseAmount.

Definition GetBaseAmountByQuoteAmount
    (p : Vpool) (dir : Direction) (quoteAmount : Dec.t) : Res Dec.t :=
  baseAmountByQuoteAmount (QuoteAssetReserve p) (BaseAssetReserve p)
                          dir quoteAmount.

(** Modelled from the spec: [Vpool.HasEnoughQuoteReserve], of which only
    the test is among the sources (section 4.1: true iff
    [amount <= quoteAssetReserve * tradeLimitRatio]). *)
Definition HasEnoughQuoteReserve (p : Vpool) (quoteAmount : Dec.t) : bool :=
  Dec.LTE quoteAmount
          (Dec.Mul (QuoteAssetReserve p) (TradeLimitRatio (Config p))).

End VpoolTypes.

(** ** x/vpool/keeper *)

Module VpoolKeeper.
Import VpoolTypes.

(** The keeper's part of the key-value store: pools by pair, snapshots by
    pair and counter, the latest counter by pair. *)
Record Keeper : Type := {
  pools : gmap string Vpool;
  snapshots : gmap (string * N) ReserveSnapshot;
  snapshotCounters : gmap string N
}.

(** The part of [sdk.Context] the keeper reads. *)
Record Context : Type := {
  BlockTime : Time.t;
  BlockHeight : Z
}.

(** Modelled from the spec: [getPool] (section 4.1: PoolNotFound for an
    unknown pair). *)
Definition getPool (k : Keeper) (pair : string) : Res Vpool :=
  match pools k !! pair with
  | Some pool => Ok pool
  | None => Err ErrPoolNotFound
  end.

(** Modelled from the spec: [getSnapshot] and [getSnapshotCounter]
    (section 4.2). *)
Definition getSnapshot (k : Keeper) (pair : string) (counter : N)
    : Res ReserveSnapshot :=
  match snapshots k !! (pair, counter) with
  | Some s => Ok s
  | None => Err ErrSnapshotNotFound
  end.

Definition getSnapshotCounter (k : Keeper) (pair : string) : option N :=
  snapshotCounters k !! pair.

Definition saveSnapshot (k : Keeper) (pair : string) (counter : N)
    (s : ReserveSnapshot) : Keeper :=
  {| pools := pools k;
     snapshots := <[(pair, counter) := s]> (snapshots k);
     snapshotCounters := snapshotCounters k |}.

Definition saveSnapshotCounter (k : Keeper) (pair : string) (counter : N)
    : Keeper :=
  {| pools := pools k;
     snapshots := snapshots k;
     snapshotCounters := <[pair := counter]> (snapshotCounters k) |}.

Definition savePool (k : Keeper) (pool : Vpool) : Keeper :=
  {| pools := <[Pair pool := pool]> (pools k);
     snapshots := snapshots k;
     snapshotCounters := snapshotCounters k |}.

(** Modelled from the spec: [ExistsPool], not among the sources; a pool
    exists when [getPool] finds it. *)
Definition ExistsPool (k : Keeper) (pair : string) : bool :=
  isOk (getPool k pair).

(** prices.go, GetSpotPrice. *)
Definition GetSpotPrice (k : Keeper) (pair : string) : Res Dec.t :=
  do pool <- getPool k pair;
  Dec.Quo (QuoteAssetReserve pool) (BaseAssetReserve pool).

(** prices.go, GetBaseAssetPrice. *)
Definition GetBaseAssetPrice (k : Keeper) (pair : string)
    (dir : Direction) (baseAssetAmount : Dec.t) : Res Dec.t :=
  do pool <- getPool k pair;
  GetQuoteAmountByBaseAmount pool dir baseAssetAmount.

(** prices.go, GetQuoteAssetPrice. *)
Definition GetQuoteAssetPrice (k : Keeper) (pair : string)
    (dir : Direction) (quoteAmount : Dec.t) : Res Dec.t :=
  do pool <- getPool k pair;
  GetBaseAmountByQuoteAmount pool dir quoteAmount.

Record snapshotPriceOptions : Type := {
  optPair : string;
  twapCalcOption : TwapCalcOption;
  direction : Direction;
  assetAmount : Dec.t
}.

(** Modelled from the spec: [getPriceWithSnapshot] (section 4.3, step 3a):
    the spot price of the snapshot's reserves, or the swap formulas of
    section 4.1 applied to them. *)
Definition getPriceWithSnapshot (snapshot : ReserveSnapshot)
    (opts : snapshotPriceOptions) : Res Dec.t :=
  match twapCalcOption opts with
  | TwapCalcOption_SPOT =>
      Dec.Quo (snapQuoteAssetReserve snapshot) (snapBaseAssetReserve snapshot)
  | TwapCalcOption_QUOTE_ASSET_SWAP =>
      baseAmountByQuoteAmount
        (snapQuoteAssetReserve snapshot) (snapBaseAssetReserve snapshot)
        (direction opts) (assetAmount opts)
  | TwapCalcOption_BASE_ASSET_SWAP =>
      quoteAmountByBaseAmount
        (snapQuoteAssetReserve snapshot) (snapBaseAssetReserve snapshot)
        (direction opts) (assetAmount opts)
  end.

(** prices.go, calcTwap: the body of the [for] loop.  [n] is the number of
    counters still to visit, the one visited now is [n - 1]; the loop
    variables are passed along.  The result is the pair
    [(cumulativePrice, cumulativePeriodMs)] the loop leaves behind. *)
Fixpoint twapLoop (k : Keeper) (pair : string) (opts : snapshotPriceOptions)
    (lowerLimitTimestampMs : Z) (n : nat)
    (cumulativePrice : Dec.t) (cumulativePeriodMs prevTimestampMs : Z)
    : Res (Dec.t * Z) :=
  match n with
  | O => Ok (cumulativePrice, cumulativePeriodMs)
  | S c =>
      do currentSnapshot <- getSnapshot k pair (N.of_nat c);
      do currentPrice <- getPriceWithSnapshot currentSnapshot opts;
      let timeElapsedMs :=
        if TimestampMs currentSnapshot <=? lowerLimitTimestampMs
        then Int64.sub prevTimestampMs lowerLimitTimestampMs
        else Int64.sub prevTimestampMs (TimestampMs currentSnapshot) in
      let cumulativePrice' :=
        Dec.Add cumulativePrice (Dec.MulInt64 currentPrice timeElapsedMs) in
      let cumulativePeriodMs' :=
        Int64.add cumulativePeriodMs timeElapsedMs in
      if TimestampMs currentSnapshot <=? lowerLimitTimestampMs
      then Ok (cumulativePrice', cumulativePeriodMs')
      else twapLoop k pair opts lowerLimitTimestampMs c
             cumulativePrice' cumulativePeriodMs'
             (TimestampMs currentSnapshot)
  end.

Definition lowerLimit (ctx : Context) (lookbackInterval : Time.Duration) : Z :=
  Time.UnixMilli (Time.Add (BlockTime ctx) (Int64.neg lookbackInterval)).

(** prices.go, calcTwap. *)
Definition calcTwap (k : Keeper) (ctx : Context) (pair : string)
    (option : TwapCalcOption) (dir : Direction) (amount : Dec.t)
    (lookbackInterval : Time.Duration) : Res Dec.t :=
  let lowerLimitTimestampMs := lowerLimit ctx lookbackInterval in
  match getSnapshotCounter k pair with
  | None => Err (ErrSnapshotCounterNotFound pair)
  | Some latestSnapshotCounter =>
      do acc <- twapLoop k pair
                  {| optPair := pair; twapCalcOption := option;
                     direction := dir; assetAmount := amount |}
                  lowerLimitTimestampMs
                  (Z.to_nat (Int64.of_uint64 latestSnapshotCounter + 1))
                  Dec.ZeroDec 0 (Time.UnixMilli (BlockTime ctx));
      Dec.QuoInt64 (fst acc) (snd acc)
  end.

(** prices.go, GetBaseAssetTWAP and GetQuoteAssetTWAP. *)
Definition GetBaseAssetTWAP (k : Keeper) (ctx : Context) (pair : string)
    (dir : Direction) (baseAssetAmount : Dec.t)
    (lookbackInterval : Time.Duration) : Res Dec.t :=
  calcTwap k ctx pair TwapCalcOption_BASE_ASSET_SWAP dir baseAssetAmount
           lookbackInterval.

Definition GetQuoteAssetTWAP (k : Keeper) (ctx : Context) (pair : string)
    (dir : Direction) (quoteAssetAmount : Dec.t)
    (lookbackInterval : Time.Duration) : Res Dec.t :=
  calcTwap k ctx pair TwapCalcOption_QUOTE_ASSET_SWAP dir quoteAssetAmount
           lookbackInterval.

End VpoolKeeper.

(** ** x/perp/keeper: margin *)

Module PerpKeeper.

Record Coin : Type := { Denom : string; Amount : Z }.

(** [sdk.Int.ToDec]. *)
Definition ToDec (n : Z) : Dec.t := Dec.NewDec n.

(** Modelled from the spec: the [Position] record (section 3). *)
Record Position : Type := {
  TraderAddress : string;
  Pair : string;
  Size_ : Dec.t;
  Margin : Dec.t;
  LastUpdateCumulativePremiumFraction : Dec.t
}.

(** The result of CalcRemainMarginWithFundingPayment (section 3,
    MarginCalculationResult). *)
Record Remaining : Type := {
  remMargin : Dec.t;
  BadDebt : Dec.t;
  FundingPayment : Dec.t;
  LatestCumulativePremiumFraction : Dec.t
}.

Record MsgAddMargin : Type := {
  addSender : string;
  addTokenPair : string;
  addMargin : Coin
}.

Record MsgRemoveMargin : Type := {
  Sender : string;
  TokenPair : string;
  msgMargin : Coin
}.

Inductive MsgAddMarginResponse : Type := mkMsgAddMarginResponse.

Record MsgRemoveMarginResponse : Type := {
  MarginOut : Coin;
  respFundingPayment : Dec.t
}.

Inductive Event : Type :=
  | Transfer (coin : Coin) (from to : string)
  | MarginChange (trader : string) (pair : string) (amount : Z)
                 (fundingPayment : Dec.t).

Inductive PnLPreferenceOption : Type :=
  | PnLPreferenceOption_MIN
  | PnLPreferenceOption_MAX.

Definition VaultModuleAccount : string := "vault".

Section Keeper.

(** The bank module's balances and the account addresses are external;
    a bank call leaves a new bank state and maybe an error. *)
Variable Bank : Type.
Variable AccAddress : Type.
Variable AccAddressFromBech32 : string -> Ret AccAddress.
Variable AccAddressString : AccAddress -> string.
Variable GetModuleAddress : string -> AccAddress.
Variable SendCoinsFromAccountToModule :
  Bank -> AccAddress -> string -> Coin -> Bank * option Error.
Variable SendCoinsFromModuleToAccount :
  Bank -> string -> AccAddress -> Coin -> Bank * option Error.

(** [common.StableDenom] and [common.NewTokenPairFromStr]. *)
Variable StableDenom : string.
Variable NewTokenPairFromStr : string -> Ret string.

(** What a call reads and writes: the vpool keeper's store, the position
    store, the bank, the emitted events. *)
Record State : Type := {
  vpool : VpoolKeeper.Keeper;
  positions : gmap (string * string) Position;
  bank : Bank;
  events : list Event
}.

(** The keeper's computations that are not among the sources; they read
    the state and return a value or an error. *)
Variable CalcRemainMarginWithFundingPayment :
  State -> Position -> Dec.t -> Ret Remaining.
Variable calcFreeCollateral : State -> Position -> Dec.t -> Ret Z.
Variable getPreferencePositionNotionalAndUnrealizedPnL :
  State -> Position -> PnLPreferenceOption -> Ret (Dec.t * Dec.t).

(** Modelled from the spec: [Positions().Get] and [Positions().Set] over
    the key-value store (section 6): [Get] decodes a fresh record, so a
    change to it reaches the store only through [Set]. *)
Definition PositionsGet (st : State) (pair trader : string)
    : Res Position :=
  match positions st !! (pair, trader) with
  | Some p => Ok p
  | None => Err ErrPositionNotFound
  end.

Definition PositionsSet (st : State) (pair trader : string)
    (p : Position) : State :=
  {| vpool := vpool st;
     positions := <[(pair, trader) := p]> (positions st);
     bank := bank st;
     events := events st |}.

Definition emit (st : State) (e : Event) : State :=
  {| vpool := vpool st;
     positions := positions st;
     bank := bank st;
     events := events st ++ [e] |}.

Definition withBank (st : State) (b : Bank) : State :=
  {| vpool := vpool st;
     positions := positions st;
     bank := b;
     events := events st |}.

Definition setMargin (p : Position) (m : Dec.t) : Position :=
  {| TraderAddress := TraderAddress p;
     Pair := Pair p;
     Size_ := Size_ p;
     Margin := m;
     LastUpdateCumulativePremiumFraction :=
       LastUpdateCumulativePremiumFraction p |}.

Definition setLastUpdateCumulativePremiumFraction
    (p : Position) (f : Dec.t) : Position :=
  {| TraderAddress := TraderAddress p;
     Pair := Pair p;
     Size_ := Size_ p;
     Margin := Margin p;
     LastUpdateCumulativePremiumFraction := f |}.

(** requireVpool. *)
Definition requireVpool (st : State) (pair : string) : option Error :=
  if negb (VpoolKeeper.ExistsPool (vpool st) pair)
  then Some (ErrPairNotFound pair)
  else None.

(** The message checks AddMargin and RemoveMargin start with: trader,
    margin denomination and sign, pair. *)
Definition messageSetup (st : State) (sender tokenPair : string)
    (margin : Coin) : Res (AccAddress * string) :=
  do trader <- ofRet (AccAddressFromBech32 sender);
  if negb (String.eqb (Denom margin) StableDenom)
  then Err ErrInvalidMarginDenom
  else if Amount margin <=? 0
  then Err (ErrMarginNotPositive (Amount margin))
  else
    do pair <- ofRet (NewTokenPairFromStr tokenPair);
    match requireVpool st pair with
    | Some e => Err e
    | None => Ok (trader, pair)
    end.

(** AddMargin. *)
Definition AddMargin (st : State) (msg : MsgAddMargin)
    : State * Res MsgAddMarginResponse :=
  match messageSetup st (addSender msg) (addTokenPair msg) (addMargin msg)
  with
  | Err e => (st, Err e)
  | Panic p => (st, Panic p)
  | Ok checked =>
      let trader := fst checked in
      let pair := snd checked in
      let addedMargin := Amount (addMargin msg) in
      match PositionsGet st pair (AccAddressString trader) with
      | Err e => (st, Err e)
      | Panic p => (st, Panic p)
      | Ok position =>
          let position1 :=
            setMargin position
                      (Dec.Add (Margin position) (ToDec addedMargin)) in
          let coinToSend :=
            {| Denom := StableDenom; Amount := addedMargin |} in
          let vaultAddr := GetModuleAddress VaultModuleAccount in
          match SendCoinsFromAccountToModule
                  (bank st) trader VaultModuleAccount coinToSend with
          | (b, Some e) => (withBank st b, Err e)
          | (b, None) =>
              let st1 := withBank st b in
              let st2 :=
                emit st1 (Transfer coinToSend
                                   (AccAddressString vaultAddr)
                                   (AccAddressString trader)) in
              let st3 :=
                PositionsSet st2 pair (AccAddressString trader)
                             position1 in
              let st4 :=
                emit st3 (MarginChange (AccAddressString trader) pair
                                       addedMargin Dec.ZeroDec) in
              (st4, Ok mkMsgAddMarginResponse)
          end
      end
  end.

(** RemoveMargin. *)
Definition RemoveMargin (st : State) (msg : MsgRemoveMargin)
    : State * Res MsgRemoveMarginResponse :=
  match messageSetup st (Sender msg) (TokenPair msg) (msgMargin msg) with
  | Err e => (st, Err e)
  | Panic p => (st, Panic p)
  | Ok checked =>
      let trader := fst checked in
      let pair := snd checked in
      let margin := Amount (msgMargin msg) in
      match PositionsGet st pair (AccAddressString trader) with
      | Err e => (st, Err e)
      | Panic p => (st, Panic p)
      | Ok position =>
          let marginDelta := ToDec (- margin) in
          match CalcRemainMarginWithFundingPayment st position marginDelta
          with
          | Fail e => (st, Err e)
          | Val remaining =>
              let position1 :=
                setLastUpdateCumulativePremiumFraction
                  (setMargin position (remMargin remaining))
                  (LatestCumulativePremiumFraction remaining) in
              if negb (Dec.IsZero (BadDebt remaining))
              then (st, Err ErrHasBadDebt)
              else
                match calcFreeCollateral st position1
                                         (FundingPayment remaining) with
                | Fail e => (st, Err e)
                | Val freeCollateral =>
                    if negb (0 <=? freeCollateral)
                    then (st, Err ErrNotEnoughFreeCollateral)
                    else
                      let st1 :=
                        PositionsSet st pair (AccAddressString trader)
                                     position1 in
                      let coinToSend :=
                        {| Denom := StableDenom; Amount := margin |} in
                      match SendCoinsFromModuleToAccount
                              (bank st1) VaultModuleAccount trader
                              coinToSend with
                      | (b, Some e) => (withBank st1 b, Err e)
                      | (b, None) =>
                          let st2 := withBank st1 b in
                          let vaultAddr :=
                            GetModuleAddress VaultModuleAccount in
                          let st3 :=
                            emit st2
                              (Transfer coinToSend
                                        (AccAddressString vaultAddr)
                                        (AccAddressString trader)) in
                          let st4 :=
                            emit st3
                              (MarginChange (AccAddressString trader) pair
                                            margin
                                            (FundingPayment remaining)) in
                          (st4,
                           Ok {| MarginOut := coinToSend;
                                 respFundingPayment :=
                                   FundingPayment remaining |})
                      end
                end
          end
      end
  end.

(** GetMarginRatio. *)
Definition GetMarginRatio (st : State) (position : Position)
    : Res Dec.t :=
  if Dec.IsZero (Size_ position) then Panic PanicZeroSizePosition
  else
    do pnl <- ofRet (getPreferencePositionNotionalAndUnrealizedPnL
                       st position PnLPreferenceOption_MAX);
    let unrealizedPnL := fst pnl in
    let positionNotional := snd pnl in
    do remaining <- ofRet (CalcRemainMarginWithFundingPayment
                             st position unrealizedPnL);
    Dec.Quo (Dec.Sub (remMargin remaining) (BadDebt remaining))
            positionNotional.

(** requireMoreMarginRatio. *)
Definition requireMoreMarginRatio (marginRatio baseMarginRatio : Dec.t)
    (largerThanOrEqualTo : bool) : option Error :=
  if largerThanOrEqualTo
  then if negb (Dec.GTE marginRatio baseMarginRatio)
       then Some (ErrExternal "margin ratio did not meet criteria")
       else None
  else if negb (Dec.LT marginRatio baseMarginRatio)
       then Some (ErrExternal "margin ratio did not meet criteria")
       else None.

End Keeper.

Arguments vpool {Bank} _.
Arguments positions {Bank} _.
Arguments bank {Bank} _.
Arguments events {Bank} _.

End PerpKeeper.

(** ** The TWAP walk as section 4.3 words it *)

Module TwapSpec.
Import VpoolTypes VpoolKeeper.

(** What is stored under the counters [n - 1], ..., [0] of a pair, latest
    first. *)
Fixpoint history (k : Keeper) (pair : string) (n : nat)
    : list (option ReserveSnapshot) :=
  match n with
  | O => []
  | S c => (snapshots k !! (pair, N.of_nat c)) :: history k pair c
  end.

(** The snapshots the walk visits: it goes on while snapshots are newer
    than [lowerBound] and stops with the first one at or before it. *)
Fixpoint visited (lowerBound : Z) (hist : list ReserveSnapshot)
    : list ReserveSnapshot :=
  match hist with
  | [] => []
  | s :: rest =>
      if TimestampMs s <=? lowerBound then [s]
      else s :: visited lowerBound rest
  end.

(** The time one snapshot is responsible for. *)
Definition elapsedMs (lowerBound previousTimestamp : Z)
    (s : ReserveSnapshot) : Z :=
  if TimestampMs s <=? lowerBound
  then Int64.sub previousTimestamp lowerBound
  else Int64.sub previousTimestamp (TimestampMs s).

(** The times of the visited snapshots; [previousTimestamp] becomes the
    timestamp of the snapshot just visited. *)
Fixpoint elapsed (lowerBound previousTimestamp : Z)
    (vs : list ReserveSnapshot) : list Z :=
  match vs with
  | [] => []
  | s :: rest =>
      elapsedMs lowerBound previousTimestamp s
      :: elapsed lowerBound (TimestampMs s) rest
  end.

(** The sum of price times elapsed milliseconds. *)
Fixpoint weightedSum (prices : list Dec.t) (es : list Z) : Dec.t :=
  match prices, es with
  | p :: prices', e :: es' =>
      Dec.Add (Dec.MulInt64 p e) (weightedSum prices' es')
  | _, _ => Dec.ZeroDec
  end.

Fixpoint sumZ (es : list Z) : Z :=
  match es with
  | [] => 0
  | e :: es' => e + sumZ es'
  end.

(** The total elapsed milliseconds, an int64. *)
Definition totalMs (es : list Z) : Z := Int64.wrap (sumZ es).

(** Timestamps do not decrease with the counter (section 4.2); the list is
    latest first. *)
Fixpoint nonDecreasing (hist : list ReserveSnapshot) : Prop :=
  match hist with
  | [] => True
  | s :: rest =>
      match rest with
      | [] => True
      | s' :: _ => TimestampMs s' <= TimestampMs s
      end /\ nonDecreasing rest
  end.

(** Milliseconds far enough from the int64 bounds for differences of two
    of them not to wrap. *)
Definition small (z : Z) : Prop := - 2 ^ 62 <= z < 2 ^ 62.

End TwapSpec.

(** ** Stores and messages of the tests *)

Module Fixtures.
Import VpoolTypes VpoolKeeper.

Definition btcNusd : string := "btc:nusd".

Definition snapshot (quote base : Dec.t) (timestampMs blockNumber : Z)
    : ReserveSnapshot :=
  {| snapQuoteAssetReserve := quote; snapBaseAssetReserve := base;
     TimestampMs := timestampMs; BlockNumber := blockNumber |}.

Definition emptyKeeper : Keeper :=
  {| pools := ∅; snapshots := ∅; snapshotCounters := ∅ |}.

(** [saveSnapshot] for each element, counters from [first] on. *)
Fixpoint saveSnapshots (k : Keeper) (pair : string) (first : N)
    (l : list ReserveSnapshot) : Keeper :=
  match l with
  | [] => k
  | s :: rest =>
      saveSnapshots (saveSnapshot k pair first s) pair (first + 1)%N rest
  end.

(** The three snapshots of TestCalcTwap's spot cases. *)
Definition spotSnapshots : list ReserveSnapshot :=
  [ snapshot (Dec.NewDec 90) (Dec.NewDec 10) 10 1;
    snapshot (Dec.NewDec 85) (Dec.NewDec 10) 20 2;
    snapshot (Dec.NewDec 95) (Dec.NewDec 10) 30 3 ].

(** The store TestCalcTwap builds: the empty pool's snapshot of block 0
    under counter 0, the case's snapshots from counter 1 on, the counter
    set to their number. *)
Definition testKeeper (l : list ReserveSnapshot) : Keeper :=
  saveSnapshotCounter
    (saveSnapshots
       (saveSnapshot emptyKeeper btcNusd 0
                     (snapshot Dec.ZeroDec Dec.ZeroDec 0 0))
       btcNusd 1 l)
    btcNusd (N.of_nat (length l)).

(** A store holding nothing but the given snapshots, from counter 0 on. *)
Definition bareKeeper (l : list ReserveSnapshot) : Keeper :=
  saveSnapshotCounter (saveSnapshots emptyKeeper btcNusd 0 l)
                      btcNusd (N.of_nat (length l) - 1).

Definition ctxAtMilli (ms : Z) : Context :=
  {| BlockTime := Time.UnixMilli_ns ms; BlockHeight := 0 |}.

Definition defaultConfig : VpoolConfig :=
  {| TradeLimitRatio := Dec.OneDec;
     FluctuationLimitRatio := Dec.OneDec;
     MaxOracleSpreadRatio := Dec.OneDec;
     MaintenanceMarginRatio := Dec.mk 62500000000000000;
     MaxLeverage := Dec.NewDec 15 |}.

(** A pool of the given reserves as the price tests create it; the cached
    depth is not read by the functions embedded here. *)
Definition pool (quote base : Dec.t) : Vpool :=
  {| Pair := btcNusd; BaseAssetReserve := base; QuoteAssetReserve := quote;
     SqrtDepth := Dec.ZeroDec; Config := defaultConfig |}.

Definition poolKeeper (quote base : Dec.t) : Keeper :=
  savePool emptyKeeper (pool quote base).

(** The pool of TestPoolHasEnoughQuoteReserve: reserves of 10 * 10^6, a
    trade limit ratio of 0.9. *)
Definition limitPool : Vpool :=
  {| Pair := "BTC:NUSD";
     BaseAssetReserve := Dec.NewDec 10000000;
     QuoteAssetReserve := Dec.NewDec 10000000;
     SqrtDepth := Dec.NewDec 10000;
     Config :=
       {| TradeLimitRatio := Dec.mk 900000000000000000;
          FluctuationLimitRatio := Dec.mk 100000000000000000;
          MaxOracleSpreadRatio := Dec.mk 100000000000000000;
          MaintenanceMarginRatio := Dec.mk 62500000000000000;
          MaxLeverage := Dec.NewDec 15 |} |}.

End Fixtures.

(** ** An in-memory perp keeper *)

Module PerpMemory.
Import PerpKeeper.

(** Balances of the stable denomination by account name. *)
Definition balanceOf (b : gmap string Z) (account : string) : Z :=
  default 0 (b !! account).

Definition transfer (b : gmap string Z) (from to : string) (coin : Coin)
    : gmap string Z * option Error :=
  if balanceOf b from <? Amount coin
  then (b, Some (ErrExternal "insufficient funds"))
  else (<[to := balanceOf (<[from := balanceOf b from - Amount coin]> b) to
                + Amount coin]>
          (<[from := balanceOf b from - Amount coin]> b),
        None).

Definition AccAddressFromBech32 (s : string) : Ret string :=
  if String.eqb s "" then Fail ErrInvalidAddress else Val s.

Definition NewTokenPairFromStr (s : string) : Ret string :=
  if String.eqb s "" then Fail ErrInvalidTokenPair else Val s.

Definition StableDenom : string := "unusd".

Definition St : Type := State (gmap string Z).

(** Modelled from the spec: CalcRemainMarginWithFundingPayment (section
    4.4), for a pair whose latest cumulative premium fraction is [latest]:
    the funding accrued since the position's last update and the margin
    delta are applied to the margin; a negative result is bad debt and the
    margin is zero. *)
Definition CalcRemainMarginWithFundingPayment (latest : Dec.t)
    (st : St) (position : Position) (marginDelta : Dec.t) : Ret Remaining :=
  let fundingPayment :=
    if Dec.IsZero (Size_ position) then Dec.ZeroDec
    else Dec.Mul (Dec.Sub latest
                          (LastUpdateCumulativePremiumFraction position))
                 (Size_ position) in
  let remainingMargin :=
    Dec.Sub (Dec.Add (Margin position) marginDelta) fundingPayment in
  if Dec.IsNegative remainingMargin
  then Val {| remMargin := Dec.ZeroDec;
              BadDebt := Dec.Abs remainingMargin;
              FundingPayment := fundingPayment;
              LatestCumulativePremiumFraction := latest |}
  else Val {| remMargin := remainingMargin;
              BadDebt := Dec.ZeroDec;
              FundingPayment := fundingPayment;
              LatestCumulativePremiumFraction := latest |}.

(** A free collateral that is the margin left less a fixed requirement,
    in whole units. *)
Definition calcFreeCollateral (required : Z)
    (st : St) (position : Position) (fundingPayment : Dec.t) : Ret Z :=
  Val (Z.quot (Dec.i (Margin position)) Dec.precisionReuse - required).

Definition getPreferencePositionNotionalAndUnrealizedPnL
    (st : St) (position : Position) (option : PnLPreferenceOption)
    : Ret (Dec.t * Dec.t) :=
  Val (Dec.ZeroDec, Dec.Abs (Size_ position)).

Definition RemoveMargin (required : Z) (st : St) (msg : MsgRemoveMargin)
    : St * Res MsgRemoveMarginResponse :=
  PerpKeeper.RemoveMargin
    (gmap string Z) string AccAddressFromBech32 (fun a => a)
    (fun account => account)
    (fun b module trader coin => transfer b module trader coin)
    StableDenom NewTokenPairFromStr
    (CalcRemainMarginWithFundingPayment Dec.ZeroDec)
    (calcFreeCollateral required)
    st msg.

Definition AddMargin (st : St) (msg : MsgAddMargin)
    : St * Res MsgAddMarginResponse :=
  PerpKeeper.AddMargin
    (gmap string Z) string AccAddressFromBech32 (fun a => a)
    (fun account => account)
    (fun b trader module coin => transfer b trader module coin)
    StableDenom NewTokenPairFromStr
    st msg.

Definition alice : string := "alice".

Definition position (margin : Dec.t) : Position :=
  {| TraderAddress := alice;
     Pair := Fixtures.btcNusd;
     Size_ := Dec.NewDec 1;
     Margin := margin;
     LastUpdateCumulativePremiumFraction := Dec.ZeroDec |}.

(** A state with one pool, one position of [alice] with a margin of 100,
    and the given balance of the vault. *)
Definition state (vaultBalance : Z) : St :=
  {| vpool := Fixtures.poolKeeper (Dec.NewDec 1000) (Dec.NewDec 1000);
     positions := {[ (Fixtures.btcNusd, alice) := position (Dec.NewDec 100) ]};
     bank := {[ VaultModuleAccount := vaultBalance ]};
     events := [] |}.

Definition removeMsg (amount : Z) : MsgRemoveMargin :=
  {| Sender := alice; TokenPair := Fixtures.btcNusd;
     msgMargin := {| Denom := StableDenom; Amount := amount |} |}.

Definition addMsg (amount : Z) : MsgAddMargin :=
  {| addSender := alice; addTokenPair := Fixtures.btcNusd;
     addMargin := {| Denom := StableDenom; Amount := amount |} |}.

Definition storedMargin (st : St) : option Dec.t :=
  Margin <$> (positions st !! (Fixtures.btcNusd, alice)).

End PerpMemory.

(** ** x/dex/types: pool.go *)

Module DexTypes.

(** [fmt.Sprintf] with [%d] of a uint64: its decimal digits. *)
Definition formatUint (n : N) : string := pretty n.

(** GetPoolShareBaseDenom. *)
Definition GetPoolShareBaseDenom (poolId : N) : string :=
  "matrix/pool/" +:+ formatUint poolId.

(** GetPoolShareDisplayDenom. *)
Definition GetPoolShareDisplayDenom (poolId : N) : string :=
  "MATRIX-POOL-" +:+ formatUint poolId.

(** The fields of [PoolAsset] and [Pool] that pool.go reads and writes;
    weights are [sdk.Int], unbounded here. *)
Record PoolAsset : Type := {
  Token : PerpKeeper.Coin;
  Weight : Z
}.

Record Pool : Type := {
  Id : N;
  PoolAssets : list PoolAsset;
  TotalWeight : Z
}.

Definition denomOf (asset : PoolAsset) : string :=
  PerpKeeper.Denom (Token asset).

(** [strings.Compare]: lexicographic on bytes, -1, 0 or 1. *)
Definition Compare (a b : string) : Z :=
  match String.compare a b with
  | Lt => -1
  | Eq => 0
  | Gt => 1
  end.

(** The [less] of SortPoolAssetsByDenom, on the elements rather than on
    their indices. *)
Definition lessByDenom (a b : PoolAsset) : bool :=
  Compare (denomOf a) (denomOf b) =? -1.

(** An insertion sort, one of the sorts [sort.Slice] may be. *)
Fixpoint insertBy (less : PoolAsset -> PoolAsset -> bool) (x : PoolAsset)
    (l : list PoolAsset) : list PoolAsset :=
  match l with
  | [] => [x]
  | y :: rest =>
      if less y x then y :: insertBy less x rest else x :: y :: rest
  end.

Fixpoint insertionSort (less : PoolAsset -> PoolAsset -> bool)
    (l : list PoolAsset) : list PoolAsset :=
  match l with
  | [] => []
  | x :: rest => insertBy less x (insertionSort less rest)
  end.

(** Reading a Go [map[string]bool]: [false] under a key that is not
    there. *)
Definition readExists (m : gmap string bool) (denom : string) : bool :=
  default false (m !! denom).

Section Pool.

(** [PoolAsset.Validate] and the constant [GuaranteedWeightPrecision] are
    not among the sources.  [sort.Slice] is the library's: any function
    that returns its argument rearranged and in order. *)
Variable Validate : PoolAsset -> option Error.
Variable GuaranteedWeightPrecision : Z.
Variable sortSlice :
  list PoolAsset -> (PoolAsset -> PoolAsset -> bool) -> list PoolAsset.

(** SortPoolAssetsByDenom. *)
Definition SortPoolAssetsByDenom (assets : list PoolAsset)
    : list PoolAsset :=
  sortSlice assets lessByDenom.

Definition scaleWeight (asset : PoolAsset) : PoolAsset :=
  {| Token := Token asset;
     Weight := Weight asset * GuaranteedWeightPrecision |}.

(** SetInitialPoolAssets, the body of the [for] loop over the assets still
    to come, with the loop's variables: the map of the denominations seen,
    the total weight, the scaled assets. *)
Fixpoint scaleLoop (poolAssets : list PoolAsset)
    (exists_ : gmap string bool) (newTotalWeight : Z)
    (scaledPoolAssets : list PoolAsset) : Ret (list PoolAsset * Z) :=
  match poolAssets with
  | [] => Val (scaledPoolAssets, newTotalWeight)
  | asset :: rest =>
      match Validate asset with
      | Some err => Fail err
      | None =>
          if readExists exists_ (denomOf asset)
          then Fail (ErrExternal "same PoolAsset already exists")
          else
            let asset' := scaleWeight asset in
            scaleLoop rest
                      (<[denomOf asset := true]> exists_)
                      (newTotalWeight + Weight asset')
                      (scaledPoolAssets ++ [asset'])
      end
  end.

(** SetInitialPoolAssets: the pool after the call and the error. *)
Definition SetInitialPoolAssets (p : Pool) (poolAssets : list PoolAsset)
    : Pool * option Error :=
  match scaleLoop poolAssets ∅ 0 [] with
  | Fail err => (p, Some err)
  | Val (scaledPoolAssets, newTotalWeight) =>
      ({| Id := Id p;
          PoolAssets := SortPoolAssetsByDenom scaledPoolAssets;
          TotalWeight := newTotalWeight |},
       None)
  end.

End Pool.

End DexTypes.

(** ** Collaborators and assets for the pool of pool.go *)

Module DexFixtures.
Import DexTypes.

(** A validation that asks for a positive weight, 2^30 for the weight
    precision, the insertion sort for [sort.Slice]. *)
Definition Validate (asset : PoolAsset) : option Error :=
  if Weight asset <=? 0
  then Some (ErrExternal "weight must be greater than 0")
  else None.

Definition GuaranteedWeightPrecision : Z := 2 ^ 30.

Definition sortSlice (l : list PoolAsset)
    (less : PoolAsset -> PoolAsset -> bool) : list PoolAsset :=
  insertionSort less l.

Definition asset (denom : string) (amount weight : Z) : PoolAsset :=
  {| Token := {| PerpKeeper.Denom := denom; PerpKeeper.Amount := amount |};
     Weight := weight |}.

Definition emptyPool : Pool :=
  {| Id := 1; PoolAssets := []; TotalWeight := 0 |}.

Definition SetInitialPoolAssets (p : Pool) (poolAssets : list PoolAsset)
    : Pool * option Error :=
  DexTypes.SetInitialPoolAssets Validate GuaranteedWeightPrecision sortSlice
                                p poolAssets.

End DexFixtures.

(** * Properties *)

(** ** int64 *)

Lemma wrap_in_range (z : Z) : Int64.in_range (Int64.wrap z).
Proof.
  unfold Int64.in_range, Int64.wrap, Int64.min_signed, Int64.max_signed,
    Int64.half_modulus, Int64.modulus.
  pose proof (Z.mod_pos_bound (z + 2 ^ 63) (2 ^ 64) ltac:(lia)). lia.
Qed.

Lemma wrap_id (z : Z) : Int64.in_range z -> Int64.wrap z = z.
Proof.
  unfold Int64.in_range, Int64.wrap, Int64.min_signed, Int64.max_signed,
    Int64.half_modulus, Int64.modulus.
  intros H. rewrite Z.mod_small; lia.
Qed.

Lemma wrap_add_wrap_l (a b : Z) :
  Int64.wrap (Int64.wrap a + b) = Int64.wrap (a + b).
Proof.
  unfold Int64.wrap.
  replace ((a + Int64.half_modulus) mod Int64.modulus - Int64.half_modulus
           + b + Int64.half_modulus)
    with ((a + Int64.half_modulus) mod Int64.modulus + b) by lia.
  rewrite Zplus_mod_idemp_l. f_equal. f_equal. lia.
Qed.

Lemma small_in_range (z : Z) : TwapSpec.small z -> Int64.in_range z.
Proof.
  unfold TwapSpec.small, Int64.in_range, Int64.min_signed, Int64.max_signed.
  lia.
Qed.

Lemma sub_small (a b : Z) :
  TwapSpec.small a -> TwapSpec.small b -> Int64.sub a b = a - b.
Proof.
  unfold TwapSpec.small. intros Ha Hb. apply wrap_id.
  unfold Int64.in_range, Int64.min_signed, Int64.max_signed. lia.
Qed.

(** ** sdk.Dec *)

Lemma precision_halves : Dec.precisionReuse = 2 * Dec.fivePrecision.
Proof. reflexivity. Qed.

Lemma precision_pos : 0 < Dec.precisionReuse.
Proof. reflexivity. Qed.

(** Chopping rounds to a nearest integer multiple of [10^-18]. *)
Lemma chop_nearest (d : Z) :
  2 * Z.abs (Dec.precisionReuse * Dec.chopPrecisionAndRound d - d)
  <= Dec.precisionReuse.
Proof.
  unfold Dec.chopPrecisionAndRound.
  pose proof precision_halves as HP. pose proof precision_pos as Hpos.
  set (P := Dec.precisionReuse) in *. set (F := Dec.fivePrecision) in *.
  pose proof (Z.div_mod (Z.abs d) P ltac:(lia)) as Hdm.
  pose proof (Z.mod_pos_bound (Z.abs d) P Hpos) as Hb.
  set (q := Z.abs d / P) in *. set (r := Z.abs d mod P) in *.
  cbv zeta. fold P F q r.
  destruct (Z.eqb_spec r 0) as [Hr0|Hr0];
    [|destruct (Z.compare_spec r F) as [Hc|Hc|Hc];
      [destruct (Z.even q)| |]];
    destruct (Z.ltb_spec d 0); lia.
Qed.

(** Chopping a multiple of [10^18] is exact. *)
Lemma chop_exact (x : Z) :
  Dec.chopPrecisionAndRound (x * Dec.precisionReuse) = x.
Proof.
  pose proof (chop_nearest (x * Dec.precisionReuse)) as H.
  pose proof precision_pos. nia.
Qed.

Lemma Quo_ok (a b : Dec.t) :
  Dec.i b <> 0 ->
  Dec.Quo a b
  = Ok (Dec.mk (Dec.chopPrecisionAndRound
                  (Z.quot (Dec.i a * Dec.precisionReuse * Dec.precisionReuse)
                          (Dec.i b)))).
Proof.
  intros Hb. unfold Dec.Quo. destruct (Z.eqb_spec (Dec.i b) 0); congruence.
Qed.

(** [Quo] is within half a unit of the last digit, and the truncation before
    it, of the exact quotient. *)
Lemma Quo_nearest (a b r : Dec.t) :
  Dec.Quo a b = Ok r ->
  2 * Z.abs (Dec.precisionReuse * Dec.i r * Dec.i b
             - Dec.i a * Dec.precisionReuse * Dec.precisionReuse)
  <= (Dec.precisionReuse + 2) * Z.abs (Dec.i b).
Proof.
  unfold Dec.Quo. destruct (Z.eqb_spec (Dec.i b) 0) as [|Hb]; [discriminate|].
  intros [= <-]. cbn [Dec.i].
  set (n := Dec.i a * Dec.precisionReuse * Dec.precisionReuse).
  pose proof (chop_nearest (Z.quot n (Dec.i b))) as Hc.
  pose proof (Z.quot_rem' n (Dec.i b)) as Hqr.
  pose proof (Z.rem_bound_abs n (Dec.i b) Hb) as Hrb.
  pose proof precision_pos.
  set (c := Dec.chopPrecisionAndRound (Z.quot n (Dec.i b))) in *.
  set (t := Z.quot n (Dec.i b)) in *. set (m := Z.rem n (Dec.i b)) in *.
  set (bb := Dec.i b) in *. set (P := Dec.precisionReuse) in *.
  replace (P * c * bb - n) with ((P * c - t) * bb - m) by lia.
  assert (Z.abs ((P * c - t) * bb) = Z.abs (P * c - t) * Z.abs bb)
    by apply Z.abs_mul.
  nia.
Qed.

(** When the divisor divides the scaled dividend, [Quo] is the exact
    quotient. *)
Lemma Quo_exact (a b : Dec.t) (z : Z) :
  Dec.i b <> 0 ->
  Dec.i a * Dec.precisionReuse = z * Dec.i b ->
  Dec.Quo a b = Ok (Dec.mk z).
Proof.
  intros Hb Hz. rewrite Quo_ok by assumption. do 2 f_equal.
  replace (Dec.i a * Dec.precisionReuse * Dec.precisionReuse)
    with (z * Dec.precisionReuse * Dec.i b) by (rewrite Hz; ring).
  rewrite Z.quot_mul by assumption. apply chop_exact.
Qed.

Lemma QuoInt64_MulInt64 (p : Dec.t) (e : Z) :
  e <> 0 -> Dec.QuoInt64 (Dec.MulInt64 p e) e = Ok p.
Proof.
  intros He. unfold Dec.QuoInt64, Dec.MulInt64. cbn [Dec.i].
  destruct (Z.eqb_spec e 0); [congruence|].
  rewrite Z.quot_mul by assumption. destruct p; reflexivity.
Qed.

(** ** Spot price and swap prices *)

Section Prices.
Import VpoolTypes VpoolKeeper Fixtures.

Lemma getPool_found (k : Keeper) (pair : string) (pool : Vpool) :
  pools k !! pair = Some pool -> getPool k pair = Ok pool.
Proof. unfold getPool. intros ->. reflexivity. Qed.

Lemma getPool_missing (k : Keeper) (pair : string) :
  pools k !! pair = None -> getPool k pair = Err ErrPoolNotFound.
Proof. unfold getPool. intros ->. reflexivity. Qed.

Example GetSpotPrice_complex_price :
  GetSpotPrice (poolKeeper (Dec.NewDec 2489723947) (Dec.NewDec 34597234))
               btcNusd
  = Ok (Dec.mk 71963092396345904415).
Proof. vm_compute. reflexivity. Qed.

Example GetBaseAssetPrice_remove_500 :
  GetBaseAssetPrice (poolKeeper (Dec.NewDec 1000) (Dec.NewDec 1000)) btcNusd
                    Direction_REMOVE_FROM_POOL (Dec.NewDec 500)
  = Ok (Dec.NewDec 1000).
Proof. vm_compute. reflexivity. Qed.

End Prices.

(** C7.  For a known pair whose pool has a base reserve other than zero,
    GetSpotPrice returns the quote reserve over the base reserve: the result
    of [Dec.Quo], which is the exact quotient to within half a unit of the
    eighteenth digit (and the truncation at the thirty-sixth).  For an
    unknown pair it fails with PoolNotFound.  A pool with a quote reserve of
    40000 and a base reserve of 1 has the spot price 40000. *)
Theorem GetSpotPrice_quote_over_base :
  forall (k : VpoolKeeper.Keeper) (pair : string),
    (forall pool : VpoolTypes.Vpool,
        VpoolKeeper.pools k !! pair = Some pool ->
        Dec.i (VpoolTypes.BaseAssetReserve pool) <> 0 ->
        exists price : Dec.t,
          VpoolKeeper.GetSpotPrice k pair = Ok price /\
          Dec.Quo (VpoolTypes.QuoteAssetReserve pool)
                  (VpoolTypes.BaseAssetReserve pool) = Ok price /\
          2 * Z.abs (Dec.precisionReuse * Dec.i price
                       * Dec.i (VpoolTypes.BaseAssetReserve pool)
                     - Dec.i (VpoolTypes.QuoteAssetReserve pool)
                       * Dec.precisionReuse * Dec.precisionReuse)
          <= (Dec.precisionReuse + 2)
             * Z.abs (Dec.i (VpoolTypes.BaseAssetReserve pool))) /\
    (VpoolKeeper.pools k !! pair = None ->
     VpoolKeeper.GetSpotPrice k pair = Err ErrPoolNotFound) /\
    VpoolKeeper.GetSpotPrice
      (Fixtures.poolKeeper (Dec.NewDec 40000) (Dec.NewDec 1)) Fixtures.btcNusd
    = Ok (Dec.NewDec 40000).
Proof.
  intros k pair. split; [|split].
  - intros pool Hpool Hbase.
    unfold VpoolKeeper.GetSpotPrice. rewrite (getPool_found _ _ _ Hpool).
    cbn [bind]. rewrite (Quo_ok _ _ Hbase). eexists. split; [reflexivity|].
    split; [reflexivity|].
    apply Quo_nearest. apply Quo_ok. exact Hbase.
  - intros Hnone. unfold VpoolKeeper.GetSpotPrice.
    rewrite (getPool_missing _ _ Hnone). reflexivity.
  - vm_compute. reflexivity.
Qed.

Lemma GetSpotPrice_quote_over_base_witness :
  exists price : Dec.t,
    VpoolKeeper.GetSpotPrice
      (Fixtures.poolKeeper (Dec.NewDec 40000) (Dec.NewDec 1)) Fixtures.btcNusd
    = Ok price /\
    Dec.Quo (Dec.NewDec 40000) (Dec.NewDec 1) = Ok price /\
    2 * Z.abs (Dec.precisionReuse * Dec.i price * Dec.i (Dec.NewDec 1)
               - Dec.i (Dec.NewDec 40000)
                 * Dec.precisionReuse * Dec.precisionReuse)
    <= (Dec.precisionReuse + 2) * Z.abs (Dec.i (Dec.NewDec 1)).
Proof.
  apply (proj1 (GetSpotPrice_quote_over_base
                  (Fixtures.poolKeeper (Dec.NewDec 40000) (Dec.NewDec 1))
                  Fixtures.btcNusd)
               (Fixtures.pool (Dec.NewDec 40000) (Dec.NewDec 1))).
  - vm_compute. reflexivity.
  - vm_compute. discriminate.
Defined.

(** For a stored pool with a positive base reserve [b] and quote reserve
    [q], GetBaseAssetPrice in direction AddToPool returns zero for a zero
    amount and, for a positive amount [a], [q] less the quotient of
    [k = b * q] by [b + a], where the quotient is [Dec.Quo]'s, within half a
    unit of the eighteenth digit of the exact one.  For [b = q = 1000] and
    [a = 500] the result is 333.333333333333333333. *)
Theorem GetBaseAssetPrice_add_to_pool :
  forall (k : VpoolKeeper.Keeper) (pair : string) (pool : VpoolTypes.Vpool)
         (a : Dec.t),
    VpoolKeeper.pools k !! pair = Some pool ->
    0 < Dec.i (VpoolTypes.BaseAssetReserve pool) ->
    0 <= Dec.i a ->
    let b := VpoolTypes.BaseAssetReserve pool in
    let q := VpoolTypes.QuoteAssetReserve pool in
    (Dec.i a = 0 ->
     VpoolKeeper.GetBaseAssetPrice k pair VpoolTypes.Direction_ADD_TO_POOL a
     = Ok Dec.ZeroDec) /\
    (0 < Dec.i a ->
     exists quoteAfter : Dec.t,
       Dec.Quo (Dec.Mul b q) (Dec.Add b a) = Ok quoteAfter /\
       2 * Z.abs (Dec.precisionReuse * Dec.i quoteAfter * (Dec.i b + Dec.i a)
                  - Dec.i (Dec.Mul b q)
                    * Dec.precisionReuse * Dec.precisionReuse)
       <= (Dec.precisionReuse + 2) * (Dec.i b + Dec.i a) /\
       VpoolKeeper.GetBaseAssetPrice k pair VpoolTypes.Direction_ADD_TO_POOL a
       = Ok (Dec.Sub q quoteAfter)) /\
    VpoolKeeper.GetBaseAssetPrice
      (Fixtures.poolKeeper (Dec.NewDec 1000) (Dec.NewDec 1000))
      Fixtures.btcNusd VpoolTypes.Direction_ADD_TO_POOL (Dec.NewDec 500)
    = Ok (Dec.mk 333333333333333333333).
Proof.
  intros k pair pool a Hpool Hb Ha b q.
  unfold VpoolKeeper.GetBaseAssetPrice.
  rewrite (getPool_found _ _ _ Hpool). cbn [bind].
  unfold VpoolTypes.GetQuoteAmountByBaseAmount,
    VpoolTypes.quoteAmountByBaseAmount.
  fold b q. split; [|split].
  - intros Hz. unfold Dec.IsZero. rewrite Hz. reflexivity.
  - intros Hpos. unfold Dec.IsZero.
    destruct (Z.eqb_spec (Dec.i a) 0) as [Hz|_]; [lia|].
    assert (Hsum : Dec.i (Dec.Add b a) <> 0) by (unfold b; cbn [Dec.Add Dec.i]; lia).
    destruct (Dec.Quo (Dec.Mul b q) (Dec.Add b a)) as [x| |] eqn:Hquo;
      try (rewrite (Quo_ok _ _ Hsum) in Hquo; discriminate).
    exists x. split; [reflexivity|]. split; [|reflexivity].
    pose proof (Quo_nearest _ _ _ Hquo) as Hn.
    cbn [Dec.Add Dec.i] in Hn.
    rewrite (Z.abs_eq (Dec.i b + Dec.i a)) in Hn by (unfold b; lia).
    exact Hn.
  - vm_compute. reflexivity.
Qed.

Lemma GetBaseAssetPrice_add_to_pool_witness :
  exists quoteAfter : Dec.t,
    Dec.Quo (Dec.Mul (Dec.NewDec 1000) (Dec.NewDec 1000))
            (Dec.Add (Dec.NewDec 1000) (Dec.NewDec 500)) = Ok quoteAfter /\
    2 * Z.abs (Dec.precisionReuse * Dec.i quoteAfter
                 * (Dec.i (Dec.NewDec 1000) + Dec.i (Dec.NewDec 500))
               - Dec.i (Dec.Mul (Dec.NewDec 1000) (Dec.NewDec 1000))
                 * Dec.precisionReuse * Dec.precisionReuse)
    <= (Dec.precisionReuse + 2)
       * (Dec.i (Dec.NewDec 1000) + Dec.i (Dec.NewDec 500)) /\
    VpoolKeeper.GetBaseAssetPrice
      (Fixtures.poolKeeper (Dec.NewDec 1000) (Dec.NewDec 1000))
      Fixtures.btcNusd VpoolTypes.Direction_ADD_TO_POOL (Dec.NewDec 500)
    = Ok (Dec.Sub (Dec.NewDec 1000) quoteAfter).
Proof.
  apply (proj1 (proj2 (GetBaseAssetPrice_add_to_pool
                         (Fixtures.poolKeeper (Dec.NewDec 1000)
                                              (Dec.NewDec 1000))
                         Fixtures.btcNusd
                         (Fixtures.pool (Dec.NewDec 1000) (Dec.NewDec 1000))
                         (Dec.NewDec 500)
                         ltac:(vm_compute; reflexivity)
                         ltac:(vm_compute; reflexivity)
                         ltac:(vm_compute; discriminate)))).
  vm_compute. reflexivity.
Defined.

(** The tests of the two swap functions fix the division.  Reserves of 1000
    and 1000: adding 500 gives 333.333333333333333333 in either function, as
    TestGetBaseAssetPrice and TestGetQuoteAssetPrice expect, where a
    division truncated at eighteen digits gives 333.333333333333333334;
    adding 999555999 of quote gives 999.998999556802663137 of base, as
    TestGetBaseAmountByQuoteAmount expects, where the exact amount truncated
    and a rounded-up division both give 999.998999556802663136. *)
Example swap_tests_fix_the_division :
  let b := Dec.NewDec 1000 in
  let q := Dec.NewDec 1000 in
  let large := Dec.NewDec 999555999 in
  VpoolTypes.quoteAmountByBaseAmount
    q b VpoolTypes.Direction_ADD_TO_POOL (Dec.NewDec 500)
  = Ok (Dec.mk 333333333333333333333) /\
  VpoolTypes.baseAmountByQuoteAmount
    q b VpoolTypes.Direction_ADD_TO_POOL (Dec.NewDec 500)
  = Ok (Dec.mk 333333333333333333333) /\
  VpoolTypes.baseAmountByQuoteAmount
    q b VpoolTypes.Direction_ADD_TO_POOL large
  = Ok (Dec.mk 999998999556802663137) /\
  (do quoteAfter <- Dec.QuoTruncate (Dec.Mul b q)
                                    (Dec.Add b (Dec.NewDec 500));
   Ok (Dec.Sub q quoteAfter))
  = Ok (Dec.mk 333333333333333333334) /\
  Z.quot (Dec.i b * Dec.i large) (Dec.i q + Dec.i large)
  = 999998999556802663136 /\
  Dec.i b
  - - (- (Dec.i (Dec.Mul b q) * Dec.precisionReuse)
       / (Dec.i q + Dec.i large))
  = 999998999556802663136.
Proof. vm_compute. repeat split; reflexivity. Qed.


(** C5.  For a stored pool, GetBaseAssetPrice in direction RemoveFromPool
    fails with BaseReserveAtZero whenever the amount is at least the base
    reserve (the reserve being positive, or the amount other than zero); a
    zero amount gives zero in either direction; on the pool of 1000 and 1000
    removing 1000 fails with BaseReserveAtZero. *)
Theorem GetBaseAssetPrice_base_reserve_at_zero :
  forall (k : VpoolKeeper.Keeper) (pair : string) (pool : VpoolTypes.Vpool),
    VpoolKeeper.pools k !! pair = Some pool ->
    (forall a : Dec.t,
        Dec.i (VpoolTypes.BaseAssetReserve pool) <= Dec.i a ->
        0 < Dec.i (VpoolTypes.BaseAssetReserve pool) \/ Dec.i a <> 0 ->
        VpoolKeeper.GetBaseAssetPrice
          k pair VpoolTypes.Direction_REMOVE_FROM_POOL a
        = Err ErrBaseReserveAtZero) /\
    (forall (dir : VpoolTypes.Direction) (a : Dec.t),
        Dec.i a = 0 ->
        VpoolKeeper.GetBaseAssetPrice k pair dir a = Ok Dec.ZeroDec) /\
    VpoolKeeper.GetBaseAssetPrice
      (Fixtures.poolKeeper (Dec.NewDec 1000) (Dec.NewDec 1000))
      Fixtures.btcNusd VpoolTypes.Direction_REMOVE_FROM_POOL (Dec.NewDec 1000)
    = Err ErrBaseReserveAtZero.
Proof.
  intros k pair pool Hpool.
  unfold VpoolKeeper.GetBaseAssetPrice.
  rewrite (getPool_found _ _ _ Hpool). cbn [bind].
  unfold VpoolTypes.GetQuoteAmountByBaseAmount,
    VpoolTypes.quoteAmountByBaseAmount, Dec.IsZero, Dec.GTE.
  split; [|split].
  - intros a Hge Hnz.
    destruct (Z.eqb_spec (Dec.i a) 0) as [Hz|_]; [lia|].
    destruct (Z.leb_spec (Dec.i (VpoolTypes.BaseAssetReserve pool)) (Dec.i a));
      [reflexivity|lia].
  - intros dir a Hz. rewrite Hz. reflexivity.
  - vm_compute. reflexivity.
Qed.

Lemma GetBaseAssetPrice_base_reserve_at_zero_witness :
  VpoolKeeper.GetBaseAssetPrice
    (Fixtures.poolKeeper (Dec.NewDec 1000) (Dec.NewDec 1000))
    Fixtures.btcNusd VpoolTypes.Direction_REMOVE_FROM_POOL (Dec.NewDec 1234)
  = Err ErrBaseReserveAtZero.
Proof.
  apply (proj1 (GetBaseAssetPrice_base_reserve_at_zero
                  (Fixtures.poolKeeper (Dec.NewDec 1000) (Dec.NewDec 1000))
                  Fixtures.btcNusd
                  (Fixtures.pool (Dec.NewDec 1000) (Dec.NewDec 1000))
                  ltac:(vm_compute; reflexivity))
               (Dec.NewDec 1234)).
  - vm_compute. discriminate.
  - left. vm_compute. reflexivity.
Defined.

(** C8.  HasEnoughQuoteReserve is true exactly when the amount is at most
    the quote reserve times the trade limit ratio; the amount equal to that
    product passes and every greater amount does not.  On the pool of
    TestPoolHasEnoughQuoteReserve, 8000000 and 9000000 pass and 9000001 does
    not. *)
Theorem HasEnoughQuoteReserve_inclusive :
  forall (p : VpoolTypes.Vpool) (amount : Dec.t),
    let limit :=
      Dec.Mul (VpoolTypes.QuoteAssetReserve p)
              (VpoolTypes.TradeLimitRatio (VpoolTypes.Config p)) in
    (VpoolTypes.HasEnoughQuoteReserve p amount = true
     <-> Dec.i amount <= Dec.i limit) /\
    VpoolTypes.HasEnoughQuoteReserve p limit = true /\
    (Dec.i limit < Dec.i amount ->
     VpoolTypes.HasEnoughQuoteReserve p amount = false) /\
    VpoolTypes.HasEnoughQuoteReserve Fixtures.limitPool (Dec.NewDec 8000000)
    = true /\
    VpoolTypes.HasEnoughQuoteReserve Fixtures.limitPool (Dec.NewDec 9000000)
    = true /\
    VpoolTypes.HasEnoughQuoteReserve Fixtures.limitPool (Dec.NewDec 9000001)
    = false /\
    VpoolTypes.HasEnoughQuoteReserve Fixtures.limitPool
      (Dec.mk (9000000 * Dec.precisionReuse + 1))
    = false.
Proof.
  intros p amount limit.
  unfold VpoolTypes.HasEnoughQuoteReserve, Dec.LTE. fold limit.
  repeat split.
  - apply Z.leb_le.
  - apply Z.leb_le.
  - apply Z.leb_refl.
  - intros H. apply Z.leb_gt. exact H.
Qed.

Lemma HasEnoughQuoteReserve_inclusive_witness :
  VpoolTypes.HasEnoughQuoteReserve Fixtures.limitPool (Dec.NewDec 9000001)
  = false.
Proof.
  apply (proj1 (proj2 (proj2 (HasEnoughQuoteReserve_inclusive
                                Fixtures.limitPool (Dec.NewDec 9000001))))).
  vm_compute. reflexivity.
Defined.

(** ** Margin *)

Section Margin.
Import PerpKeeper.

Variable Bank : Type.
Variable AccAddress : Type.
Variable AccAddressFromBech32 : string -> Ret AccAddress.
Variable AccAddressString : AccAddress -> string.
Variable GetModuleAddress : string -> AccAddress.
Variable SendCoinsFromAccountToModule :
  Bank -> AccAddress -> string -> Coin -> Bank * option Error.
Variable SendCoinsFromModuleToAccount :
  Bank -> string -> AccAddress -> Coin -> Bank * option Error.
Variable StableDenom : string.
Variable NewTokenPairFromStr : string -> Ret string.
Variable CalcRemainMarginWithFundingPayment :
  State Bank -> Position -> Dec.t -> Ret Remaining.
Variable calcFreeCollateral : State Bank -> Position -> Dec.t -> Ret Z.

Let setup := messageSetup Bank AccAddress AccAddressFromBech32 StableDenom
                          NewTokenPairFromStr.
Let remove := PerpKeeper.RemoveMargin
                Bank AccAddress AccAddressFromBech32 AccAddressString
                GetModuleAddress SendCoinsFromModuleToAccount StableDenom
                NewTokenPairFromStr CalcRemainMarginWithFundingPayment
                calcFreeCollateral.
Let add := PerpKeeper.AddMargin
             Bank AccAddress AccAddressFromBech32 AccAddressString
             GetModuleAddress SendCoinsFromAccountToModule StableDenom
             NewTokenPairFromStr.

(** A message that passes the checks has the stable denomination and a
    strictly positive amount. *)
Lemma messageSetup_ok (st : State Bank) (sender tokenPair : string)
    (margin : Coin) (checked : AccAddress * string) :
  setup st sender tokenPair margin = Ok checked ->
  Denom margin = StableDenom /\ 0 < Amount margin.
Proof.
  unfold setup, messageSetup.
  destruct (AccAddressFromBech32 sender); cbn [ofRet bind]; [|discriminate].
  destruct (String.eqb_spec (Denom margin) StableDenom); cbn [negb];
    [|discriminate].
  destruct (Z.leb_spec (Amount margin) 0); [discriminate|].
  intros _. split; [assumption|lia].
Qed.

(** RemoveMargin with bad debt fails with the bad-debt error and leaves the
    state as it was. *)
Lemma RemoveMargin_bad_debt (st : State Bank) (msg : MsgRemoveMargin)
    (trader : AccAddress) (pair : string) (position : Position)
    (remaining : Remaining) :
  setup st (Sender msg) (TokenPair msg) (msgMargin msg) = Ok (trader, pair) ->
  PositionsGet Bank st pair (AccAddressString trader) = Ok position ->
  CalcRemainMarginWithFundingPayment
    st position (ToDec (- Amount (msgMargin msg))) = Val remaining ->
  Dec.IsZero (BadDebt remaining) = false ->
  remove st msg = (st, Err ErrHasBadDebt).
Proof.
  intros Hsetup Hget Hcalc Hbad. unfold remove, PerpKeeper.RemoveMargin.
  fold setup. rewrite Hsetup. cbn [fst snd]. rewrite Hget, Hcalc, Hbad.
  reflexivity.
Qed.

(** RemoveMargin that would leave a negative free collateral fails with the
    free-collateral error and leaves the state as it was. *)
Lemma RemoveMargin_not_enough_free_collateral
    (st : State Bank) (msg : MsgRemoveMargin)
    (trader : AccAddress) (pair : string) (position : Position)
    (remaining : Remaining) (freeCollateral : Z) :
  setup st (Sender msg) (TokenPair msg) (msgMargin msg) = Ok (trader, pair) ->
  PositionsGet Bank st pair (AccAddressString trader) = Ok position ->
  CalcRemainMarginWithFundingPayment
    st position (ToDec (- Amount (msgMargin msg))) = Val remaining ->
  Dec.IsZero (BadDebt remaining) = true ->
  calcFreeCollateral
    st
    (setLastUpdateCumulativePremiumFraction
       (setMargin position (remMargin remaining))
       (LatestCumulativePremiumFraction remaining))
    (FundingPayment remaining) = Val freeCollateral ->
  freeCollateral < 0 ->
  remove st msg = (st, Err ErrNotEnoughFreeCollateral).
Proof.
  intros Hsetup Hget Hcalc Hbad Hfree Hneg.
  unfold remove, PerpKeeper.RemoveMargin.
  fold setup. rewrite Hsetup. cbn [fst snd]. rewrite Hget, Hcalc, Hbad.
  cbn [negb]. rewrite Hfree.
  destruct (Z.leb_spec 0 freeCollateral); [lia|reflexivity].
Qed.

(** A failing RemoveMargin leaves the position store as it was, unless the
    failure is the transfer's: then the position has been written. *)
Lemma RemoveMargin_failure_positions (st st' : State Bank)
    (msg : MsgRemoveMargin) (e : Error) :
  remove st msg = (st', Err e) ->
  st' = st \/
  exists (trader : AccAddress) (pair : string) (position : Position)
         (b : Bank),
    SendCoinsFromModuleToAccount
      (bank st) VaultModuleAccount trader
      {| Denom := StableDenom; Amount := Amount (msgMargin msg) |}
    = (b, Some e) /\
    positions st' = <[(pair, AccAddressString trader) := position]>
                      (positions st).
Proof.
  unfold remove, PerpKeeper.RemoveMargin.
  destruct (messageSetup _ _ _ _ _ _ _ _ _) as [[trader pair]| |];
    [|intros [= <- _]; left; reflexivity|discriminate].
  cbn [fst snd].
  destruct (PositionsGet _ _ _ _) as [position| |];
    [|intros [= <- _]; left; reflexivity|discriminate].
  destruct (CalcRemainMarginWithFundingPayment _ _ _) as [remaining|];
    [|intros [= <- _]; left; reflexivity].
  destruct (negb (Dec.IsZero (BadDebt remaining)));
    [intros [= <- _]; left; reflexivity|].
  destruct (calcFreeCollateral _ _ _) as [freeCollateral|];
    [|intros [= <- _]; left; reflexivity].
  destruct (negb (0 <=? freeCollateral));
    [intros [= <- _]; left; reflexivity|].
  cbn [bank PositionsSet].
  destruct (SendCoinsFromModuleToAccount _ _ _ _) as [b [e'|]] eqn:Hsend;
    [|discriminate].
  intros [= <- <-]. right. eexists trader, pair, _, b.
  split; [exact Hsend|reflexivity].
Qed.

(** A failing AddMargin leaves the position store as it was: it transfers
    before it writes. *)
Lemma AddMargin_failure_positions (st st' : State Bank)
    (msg : MsgAddMargin) (e : Error) :
  add st msg = (st', Err e) -> positions st' = positions st.
Proof.
  unfold add, PerpKeeper.AddMargin.
  destruct (messageSetup _ _ _ _ _ _ _ _ _) as [[trader pair]| |];
    [|intros [= <- _]; reflexivity|discriminate].
  cbn [fst snd].
  destruct (PositionsGet _ _ _ _) as [position| |];
    [|intros [= <- _]; reflexivity|discriminate].
  destruct (SendCoinsFromAccountToModule _ _ _ _) as [b [e'|]];
    [|discriminate].
  intros [= <- _]. reflexivity.
Qed.

End Margin.

(** C3, at an input where the code departs from it.  A position of margin
    100, an empty vault, a request to remove 10: no bad debt, free
    collateral enough, the position is written with margin 90, then the
    transfer out of the vault fails.  The call fails and the stored margin is
    no longer 100. *)
Theorem RemoveMargin_failed_transfer_writes_position :
  let st := PerpMemory.state 0 in
  let result := PerpMemory.RemoveMargin 0 st (PerpMemory.removeMsg 10) in
  snd result = Err (ErrExternal "insufficient funds") /\
  PerpMemory.storedMargin st = Some (Dec.NewDec 100) /\
  PerpMemory.storedMargin (fst result) = Some (Dec.NewDec 90).
Proof. vm_compute. repeat split; reflexivity. Qed.

(** The sibling at the same state: AddMargin of 10 by a trader without
    funds fails and the stored margin is still 100. *)
Example AddMargin_failed_transfer_keeps_position :
  let st := PerpMemory.state 0 in
  let result := PerpMemory.AddMargin st (PerpMemory.addMsg 10) in
  snd result = Err (ErrExternal "insufficient funds") /\
  PerpMemory.storedMargin (fst result) = Some (Dec.NewDec 100).
Proof. vm_compute. repeat split; reflexivity. Qed.

Example RemoveMargin_scenarios :
  let st := PerpMemory.state 50 in
  let badDebt := PerpMemory.RemoveMargin 0 st (PerpMemory.removeMsg 101) in
  let notFree := PerpMemory.RemoveMargin 95 st (PerpMemory.removeMsg 10) in
  let notPositive := PerpMemory.RemoveMargin 0 st (PerpMemory.removeMsg 0) in
  let fine := PerpMemory.RemoveMargin 0 st (PerpMemory.removeMsg 10) in
  (snd badDebt = Err ErrHasBadDebt /\
   PerpMemory.storedMargin (fst badDebt) = Some (Dec.NewDec 100)) /\
  (snd notFree = Err ErrNotEnoughFreeCollateral /\
   PerpMemory.storedMargin (fst notFree) = Some (Dec.NewDec 100)) /\
  (snd notPositive = Err (ErrMarginNotPositive 0) /\
   PerpMemory.storedMargin (fst notPositive) = Some (Dec.NewDec 100)) /\
  (isOk (snd fine) = true /\
   PerpMemory.storedMargin (fst fine) = Some (Dec.NewDec 90)).
Proof. vm_compute. repeat split; reflexivity. Qed.

(** C9.  GetMarginRatio on a position of size zero panics with "position
    with zero size"; on a position of any other size it does not raise that
    panic: it goes on to the notional, the remaining margin and the
    division. *)
Theorem GetMarginRatio_zero_size :
  forall (Bank : Type)
         (CalcRemainMarginWithFundingPayment :
            PerpKeeper.State Bank -> PerpKeeper.Position -> Dec.t
            -> Ret PerpKeeper.Remaining)
         (getPreferencePositionNotionalAndUnrealizedPnL :
            PerpKeeper.State Bank -> PerpKeeper.Position
            -> PerpKeeper.PnLPreferenceOption -> Ret (Dec.t * Dec.t))
         (st : PerpKeeper.State Bank) (position : PerpKeeper.Position),
    let ratio :=
      PerpKeeper.GetMarginRatio
        Bank CalcRemainMarginWithFundingPayment
        getPreferencePositionNotionalAndUnrealizedPnL st position in
    (Dec.i (PerpKeeper.Size_ position) = 0 ->
     ratio = Panic PanicZeroSizePosition) /\
    (Dec.i (PerpKeeper.Size_ position) <> 0 ->
     ratio <> Panic PanicZeroSizePosition /\
     ratio =
       (do pnl <- ofRet (getPreferencePositionNotionalAndUnrealizedPnL
                           st position PerpKeeper.PnLPreferenceOption_MAX);
        do remaining <- ofRet (CalcRemainMarginWithFundingPayment
                                 st position (fst pnl));
        Dec.Quo (Dec.Sub (PerpKeeper.remMargin remaining)
                         (PerpKeeper.BadDebt remaining))
                (snd pnl))).
Proof.
  intros Bank calc pref st position ratio. subst ratio.
  unfold PerpKeeper.GetMarginRatio, Dec.IsZero.
  destruct (Z.eqb_spec (Dec.i (PerpKeeper.Size_ position)) 0) as [Hz|Hnz].
  - split; [reflexivity|contradiction].
  - split; [contradiction|]. intros _. split; [|reflexivity].
    destruct (pref st position PerpKeeper.PnLPreferenceOption_MAX)
      as [pnl|e]; cbn [ofRet bind]; [|discriminate].
    destruct (calc st position (fst pnl)) as [remaining|e];
      cbn [ofRet bind]; [|discriminate].
    unfold Dec.Quo. destruct (Dec.i (snd pnl) =? 0); discriminate.
Qed.

Lemma GetMarginRatio_zero_size_witness :
  PerpKeeper.GetMarginRatio
    (gmap string Z)
    (PerpMemory.CalcRemainMarginWithFundingPayment Dec.ZeroDec)
    PerpMemory.getPreferencePositionNotionalAndUnrealizedPnL
    (PerpMemory.state 0)
    (PerpKeeper.setMargin (PerpMemory.position (Dec.NewDec 100))
                          (Dec.NewDec 100))
  <> Panic PanicZeroSizePosition /\
  PerpKeeper.GetMarginRatio
    (gmap string Z)
    (PerpMemory.CalcRemainMarginWithFundingPayment Dec.ZeroDec)
    PerpMemory.getPreferencePositionNotionalAndUnrealizedPnL
    (PerpMemory.state 0)
    {| PerpKeeper.TraderAddress := PerpMemory.alice;
       PerpKeeper.Pair := Fixtures.btcNusd;
       PerpKeeper.Size_ := Dec.ZeroDec;
       PerpKeeper.Margin := Dec.NewDec 100;
       PerpKeeper.LastUpdateCumulativePremiumFraction := Dec.ZeroDec |}
  = Panic PanicZeroSizePosition.
Proof.
  split.
  - apply (proj2 (GetMarginRatio_zero_size
                    (gmap string Z)
                    (PerpMemory.CalcRemainMarginWithFundingPayment Dec.ZeroDec)
                    PerpMemory.getPreferencePositionNotionalAndUnrealizedPnL
                    (PerpMemory.state 0)
                    (PerpKeeper.setMargin
                       (PerpMemory.position (Dec.NewDec 100))
                       (Dec.NewDec 100)))).
    vm_compute. discriminate.
  - apply (proj1 (GetMarginRatio_zero_size
                    (gmap string Z)
                    (PerpMemory.CalcRemainMarginWithFundingPayment Dec.ZeroDec)
                    PerpMemory.getPreferencePositionNotionalAndUnrealizedPnL
                    (PerpMemory.state 0)
                    {| PerpKeeper.TraderAddress := PerpMemory.alice;
                       PerpKeeper.Pair := Fixtures.btcNusd;
                       PerpKeeper.Size_ := Dec.ZeroDec;
                       PerpKeeper.Margin := Dec.NewDec 100;
                       PerpKeeper.LastUpdateCumulativePremiumFraction :=
                         Dec.ZeroDec |})).
    reflexivity.
Defined.

(** ** The TWAP walk *)

Section Twap.
Import VpoolTypes VpoolKeeper TwapSpec.

Variable k : Keeper.
Variable pair : string.
Variable opts : snapshotPriceOptions.
Variable lowerBound : Z.

Lemma Dec_eta (d : Dec.t) : Dec.mk (Dec.i d) = d.
Proof. destruct d. reflexivity. Qed.

Lemma history_cons (n : nat) (s : ReserveSnapshot)
    (rest : list ReserveSnapshot) :
  history k pair (S n) = map Some (s :: rest) ->
  getSnapshot k pair (N.of_nat n) = Ok s /\
  history k pair n = map Some rest.
Proof.
  cbn [history map]. intros [= Hs Hrest]. unfold getSnapshot.
  rewrite Hs. split; [reflexivity|assumption].
Qed.

Lemma history_length (n : nat) (hist : list ReserveSnapshot) :
  history k pair n = map Some hist -> length hist = n.
Proof.
  intros H. apply (f_equal (@length _)) in H. rewrite length_map in H.
  rewrite <- H. clear H. induction n; cbn [history length]; congruence.
Qed.

(** The loop leaves behind what the walk of section 4.3 adds up: the sum of
    price times elapsed time on top of the price it starts with, and the
    int64 sum of the elapsed times on top of the period it starts with. *)
Lemma twapLoop_walk (n : nat) :
  forall (hist : list ReserveSnapshot) (prices : list Dec.t)
         (cumulativePrice : Dec.t) (cumulativePeriodMs prevTimestampMs : Z),
    history k pair n = map Some hist ->
    map (fun s => getPriceWithSnapshot s opts) (visited lowerBound hist)
    = map Ok prices ->
    Int64.in_range cumulativePeriodMs ->
    twapLoop k pair opts lowerBound n
             cumulativePrice cumulativePeriodMs prevTimestampMs
    = Ok (Dec.mk (Dec.i cumulativePrice
                  + Dec.i (weightedSum
                             prices
                             (elapsed lowerBound prevTimestampMs
                                      (visited lowerBound hist)))),
          Int64.wrap (cumulativePeriodMs
                      + sumZ (elapsed lowerBound prevTimestampMs
                                      (visited lowerBound hist)))).
Proof.
  induction n as [|c IH]; intros hist prices cp period prev Hhist Hprices Hr.
  - destruct hist; [|discriminate].
    cbn. rewrite Z.add_0_r, wrap_id by assumption.
    destruct prices; cbn; rewrite Z.add_0_r, Dec_eta; reflexivity.
  - destruct hist as [|s rest]; [discriminate|].
    apply history_cons in Hhist as [Hs Hrest].
    cbn [twapLoop]. rewrite Hs. cbn [bind].
    cbn [visited] in *. unfold elapsedMs.
    destruct (Z.leb_spec (TimestampMs s) lowerBound) as [Hclip|Hnew].
    + destruct prices as [|p [|p' ps]]; try discriminate.
      cbn [map] in Hprices. injection Hprices as Hp. rewrite Hp.
      cbn [bind elapsed weightedSum sumZ]. unfold elapsedMs.
      destruct (Z.leb_spec (TimestampMs s) lowerBound); [|lia].
      unfold Int64.add, Dec.Add, Dec.MulInt64, Dec.ZeroDec. cbn [Dec.i].
      rewrite !Z.add_0_r. reflexivity.
    + destruct prices as [|p ps]; [discriminate|].
      cbn [map] in Hprices. injection Hprices as Hp Hps. rewrite Hp.
      cbn [bind elapsed weightedSum sumZ]. unfold elapsedMs.
      destruct (Z.leb_spec (TimestampMs s) lowerBound); [lia|].
      rewrite (IH rest ps _ _ _ Hrest Hps) by apply wrap_in_range.
      unfold Int64.add, Dec.Add, Dec.MulInt64. rewrite wrap_add_wrap_l.
      cbn [Dec.i]. rewrite !Z.add_assoc. reflexivity.
Qed.

(** The visited snapshots are a prefix of the history; all of them but the
    last are newer than the lower bound; when the walk has left some of the
    history out, the last visited one is at or before the lower bound. *)
Lemma visited_shape (hist : list ReserveSnapshot) :
  exists skipped : list ReserveSnapshot,
    hist = visited lowerBound hist ++ skipped /\
    Forall (fun s => lowerBound < TimestampMs s)
           (removelast (visited lowerBound hist)) /\
    (skipped <> [] ->
     exists s, last (visited lowerBound hist) = Some s /\
               TimestampMs s <= lowerBound).
Proof.
  induction hist as [|s rest IH].
  - exists []. cbn. repeat split; [constructor|congruence].
  - cbn [visited].
    destruct (Z.leb_spec (TimestampMs s) lowerBound) as [Hclip|Hnew].
    + exists rest. cbn. repeat split; [constructor|].
      intros _. exists s. split; [reflexivity|assumption].
    + destruct IH as (skipped & Heq & Hall & Hlast).
      exists skipped. split; [cbn; congruence|]. split.
      * destruct (visited lowerBound rest) eqn:Hv; cbn; [constructor|].
        constructor; [assumption|exact Hall].
      * intros Hne. destruct (Hlast Hne) as (s' & Hs' & Hle).
        exists s'. split; [|assumption].
        destruct (visited lowerBound rest); [discriminate|exact Hs'].
Qed.

End Twap.

Lemma of_uint64_small (n : N) :
  (n < 2 ^ 63)%N ->
  Z.to_nat (Int64.of_uint64 n + 1) = S (N.to_nat n).
Proof.
  intros Hn. unfold Int64.of_uint64. rewrite wrap_id.
  - lia.
  - unfold Int64.in_range, Int64.min_signed, Int64.max_signed.
    assert (Z.of_N n < 2 ^ 63) by (change (2 ^ 63) with (Z.of_N (2 ^ 63)); lia).
    lia.
Qed.

(** calcTwap over a gapless history whose visited snapshots all have a
    price: the division of the weighted sum by the total elapsed time. *)
Lemma calcTwap_as_walk
    (k : VpoolKeeper.Keeper) (ctx : VpoolKeeper.Context) (pair : string)
    (option : VpoolTypes.TwapCalcOption) (dir : VpoolTypes.Direction)
    (amount : Dec.t) (lookbackInterval : Time.Duration)
    (latest : N) (hist : list VpoolTypes.ReserveSnapshot)
    (prices : list Dec.t) :
  VpoolKeeper.getSnapshotCounter k pair = Some latest ->
  (latest < 2 ^ 63)%N ->
  TwapSpec.history k pair (S (N.to_nat latest)) = map Some hist ->
  map (fun s =>
         VpoolKeeper.getPriceWithSnapshot
           s {| VpoolKeeper.optPair := pair;
                VpoolKeeper.twapCalcOption := option;
                VpoolKeeper.direction := dir;
                VpoolKeeper.assetAmount := amount |})
      (TwapSpec.visited (VpoolKeeper.lowerLimit ctx lookbackInterval) hist)
  = map Ok prices ->
  VpoolKeeper.calcTwap k ctx pair option dir amount lookbackInterval
  = Dec.QuoInt64
      (TwapSpec.weightedSum
         prices
         (TwapSpec.elapsed
            (VpoolKeeper.lowerLimit ctx lookbackInterval)
            (Time.UnixMilli (VpoolKeeper.BlockTime ctx))
            (TwapSpec.visited (VpoolKeeper.lowerLimit ctx lookbackInterval)
                              hist)))
      (TwapSpec.totalMs
         (TwapSpec.elapsed
            (VpoolKeeper.lowerLimit ctx lookbackInterval)
            (Time.UnixMilli (VpoolKeeper.BlockTime ctx))
            (TwapSpec.visited (VpoolKeeper.lowerLimit ctx lookbackInterval)
                              hist))).
Proof.
  intros Hcounter Hlatest Hhist Hprices.
  unfold VpoolKeeper.calcTwap. rewrite Hcounter.
  rewrite (of_uint64_small _ Hlatest).
  rewrite (twapLoop_walk _ _ _ _ _ hist prices _ _ _ Hhist Hprices)
    by (vm_compute; split; discriminate).
  cbn [bind fst snd Dec.ZeroDec Dec.i]. rewrite Z.add_0_l, Dec_eta.
  reflexivity.
Qed.

(** Without a snapshot counter calcTwap fails before it reads a snapshot;
    a missing snapshot under the latest counter is the walk's error. *)
Lemma calcTwap_counter_not_found
    (k : VpoolKeeper.Keeper) (ctx : VpoolKeeper.Context) (pair : string)
    (option : VpoolTypes.TwapCalcOption) (dir : VpoolTypes.Direction)
    (amount : Dec.t) (lookbackInterval : Time.Duration) :
  VpoolKeeper.getSnapshotCounter k pair = None ->
  VpoolKeeper.calcTwap k ctx pair option dir amount lookbackInterval
  = Err (ErrSnapshotCounterNotFound pair).
Proof. intros H. unfold VpoolKeeper.calcTwap. rewrite H. reflexivity. Qed.

Lemma calcTwap_snapshot_not_found
    (k : VpoolKeeper.Keeper) (ctx : VpoolKeeper.Context) (pair : string)
    (option : VpoolTypes.TwapCalcOption) (dir : VpoolTypes.Direction)
    (amount : Dec.t) (lookbackInterval : Time.Duration) (latest : N) :
  VpoolKeeper.getSnapshotCounter k pair = Some latest ->
  (latest < 2 ^ 63)%N ->
  VpoolKeeper.snapshots k !! (pair, latest) = None ->
  VpoolKeeper.calcTwap k ctx pair option dir amount lookbackInterval
  = Err ErrSnapshotNotFound.
Proof.
  intros Hcounter Hlatest Hnone. unfold VpoolKeeper.calcTwap.
  rewrite Hcounter, (of_uint64_small _ Hlatest).
  cbn [VpoolKeeper.twapLoop]. unfold VpoolKeeper.getSnapshot.
  rewrite N2Nat.id, Hnone. reflexivity.
Qed.

(** C1.  calcTwap over a snapshot history (every counter from the latest
    down to 0 holds a snapshot, every visited snapshot has a price): the
    visited snapshots are the history from the latest on, up to and
    including the first one at or before the lower bound; each one's elapsed
    time is [previousTimestamp - lowerBound] when it is at or before the
    lower bound and [previousTimestamp - timestamp] otherwise, with
    [previousTimestamp] the block time first and the timestamp of the
    snapshot visited before afterwards; the result is the sum of price times
    elapsed time divided by the sum of the elapsed times.  Subtraction and
    the total are int64 operations, the division is [Dec.QuoInt64]. *)
Theorem calcTwap_walk :
  forall (k : VpoolKeeper.Keeper) (ctx : VpoolKeeper.Context) (pair : string)
         (option : VpoolTypes.TwapCalcOption) (dir : VpoolTypes.Direction)
         (amount : Dec.t) (lookbackInterval : Time.Duration)
         (latest : N) (hist : list VpoolTypes.ReserveSnapshot)
         (prices : list Dec.t),
    let lowerBound := VpoolKeeper.lowerLimit ctx lookbackInterval in
    let visited := TwapSpec.visited lowerBound hist in
    let elapsed :=
      TwapSpec.elapsed lowerBound
                       (Time.UnixMilli (VpoolKeeper.BlockTime ctx)) visited in
    VpoolKeeper.getSnapshotCounter k pair = Some latest ->
    (latest < 2 ^ 63)%N ->
    TwapSpec.history k pair (S (N.to_nat latest)) = map Some hist ->
    map (fun s =>
           VpoolKeeper.getPriceWithSnapshot
             s {| VpoolKeeper.optPair := pair;
                  VpoolKeeper.twapCalcOption := option;
                  VpoolKeeper.direction := dir;
                  VpoolKeeper.assetAmount := amount |})
        visited
    = map Ok prices ->
    VpoolKeeper.calcTwap k ctx pair option dir amount lookbackInterval
    = Dec.QuoInt64 (TwapSpec.weightedSum prices elapsed)
                   (TwapSpec.totalMs elapsed) /\
    lowerBound
    = Time.UnixMilli (Time.Add (VpoolKeeper.BlockTime ctx)
                               (Int64.neg lookbackInterval)) /\
    exists skipped : list VpoolTypes.ReserveSnapshot,
      hist = visited ++ skipped /\
      Forall (fun s => lowerBound < VpoolTypes.TimestampMs s)
             (removelast visited) /\
      (skipped <> [] ->
       exists s, last visited = Some s /\
                 VpoolTypes.TimestampMs s <= lowerBound).
Proof.
  intros k ctx pair option dir amount lookbackInterval latest hist prices
         lowerBound visited elapsed Hcounter Hlatest Hhist Hprices.
  split; [|split].
  - exact (calcTwap_as_walk _ _ _ _ _ _ _ _ _ _ Hcounter Hlatest Hhist
                            Hprices).
  - reflexivity.
  - apply visited_shape.
Qed.

Lemma calcTwap_walk_witness :
  let k := Fixtures.testKeeper Fixtures.spotSnapshots in
  let ctx := Fixtures.ctxAtMilli 30 in
  let lookbackInterval := 20 * Time.Millisecond in
  let hist :=
    [ Fixtures.snapshot (Dec.NewDec 95) (Dec.NewDec 10) 30 3;
      Fixtures.snapshot (Dec.NewDec 85) (Dec.NewDec 10) 20 2;
      Fixtures.snapshot (Dec.NewDec 90) (Dec.NewDec 10) 10 1;
      Fixtures.snapshot Dec.ZeroDec Dec.ZeroDec 0 0 ] in
  let prices :=
    [ Dec.mk 9500000000000000000; Dec.mk 8500000000000000000;
      Dec.NewDec 9 ] in
  let lowerBound := VpoolKeeper.lowerLimit ctx lookbackInterval in
  let elapsed :=
    TwapSpec.elapsed lowerBound (Time.UnixMilli (VpoolKeeper.BlockTime ctx))
                     (TwapSpec.visited lowerBound hist) in
  elapsed = [0; 10; 10] /\
  VpoolKeeper.calcTwap k ctx Fixtures.btcNusd VpoolTypes.TwapCalcOption_SPOT
                       VpoolTypes.Direction_ADD_TO_POOL Dec.ZeroDec
                       lookbackInterval
  = Dec.QuoInt64 (TwapSpec.weightedSum prices elapsed)
                 (TwapSpec.totalMs elapsed).
Proof.
  split; [vm_compute; reflexivity|].
  apply (proj1 (calcTwap_walk
                  (Fixtures.testKeeper Fixtures.spotSnapshots)
                  (Fixtures.ctxAtMilli 30) Fixtures.btcNusd
                  VpoolTypes.TwapCalcOption_SPOT
                  VpoolTypes.Direction_ADD_TO_POOL Dec.ZeroDec
                  (20 * Time.Millisecond) 3%N
                  [ Fixtures.snapshot (Dec.NewDec 95) (Dec.NewDec 10) 30 3;
                    Fixtures.snapshot (Dec.NewDec 85) (Dec.NewDec 10) 20 2;
                    Fixtures.snapshot (Dec.NewDec 90) (Dec.NewDec 10) 10 1;
                    Fixtures.snapshot Dec.ZeroDec Dec.ZeroDec 0 0 ]
                  [ Dec.mk 9500000000000000000; Dec.mk 8500000000000000000;
                    Dec.NewDec 9 ]
                  ltac:(vm_compute; reflexivity)
                  ltac:(vm_compute; reflexivity)
                  ltac:(vm_compute; reflexivity)
                  ltac:(vm_compute; reflexivity))).
Defined.

(** C2.  The snapshots (90, 10) at 10 ms, (85, 10) at 20 ms and (95, 10) at
    30 ms, a block time of 30 ms, a lookback of 20 ms, the spot option:
    calcTwap returns 8.75, on the store the test builds (the empty pool's
    snapshot under counter 0, the three under 1 to 3) and on a store holding
    the three alone, whatever the direction and the amount. *)
Theorem calcTwap_spot_scenario :
  forall (dir : VpoolTypes.Direction) (amount : Dec.t),
    VpoolKeeper.calcTwap
      (Fixtures.testKeeper Fixtures.spotSnapshots) (Fixtures.ctxAtMilli 30)
      Fixtures.btcNusd VpoolTypes.TwapCalcOption_SPOT dir amount
      (20 * Time.Millisecond)
    = Ok (Dec.mk 8750000000000000000) /\
    VpoolKeeper.calcTwap
      (Fixtures.bareKeeper Fixtures.spotSnapshots) (Fixtures.ctxAtMilli 30)
      Fixtures.btcNusd VpoolTypes.TwapCalcOption_SPOT dir amount
      (20 * Time.Millisecond)
    = Ok (Dec.mk 8750000000000000000).
Proof. intros dir amount. split; vm_compute; reflexivity. Qed.

(** The other cases of TestCalcTwap. *)
Example calcTwap_test_cases :
  VpoolKeeper.calcTwap
    (Fixtures.testKeeper Fixtures.spotSnapshots) (Fixtures.ctxAtMilli 35)
    Fixtures.btcNusd VpoolTypes.TwapCalcOption_SPOT
    VpoolTypes.Direction_ADD_TO_POOL Dec.ZeroDec (24 * Time.Millisecond)
  = Ok (Dec.mk 8895833333333333333) /\
  VpoolKeeper.calcTwap
    (Fixtures.testKeeper
       [ Fixtures.snapshot (Dec.NewDec 30) (Dec.NewDec 10) 10 1;
         Fixtures.snapshot (Dec.NewDec 40) (Dec.mk 7500000000000000000)
                           20 2 ])
    (Fixtures.ctxAtMilli 30) Fixtures.btcNusd
    VpoolTypes.TwapCalcOption_QUOTE_ASSET_SWAP
    VpoolTypes.Direction_ADD_TO_POOL (Dec.NewDec 10) (20 * Time.Millisecond)
  = Ok (Dec.NewDec 2) /\
  VpoolKeeper.calcTwap
    (Fixtures.testKeeper
       [ Fixtures.snapshot (Dec.NewDec 60) (Dec.NewDec 10) 10 1;
         Fixtures.snapshot (Dec.NewDec 50) (Dec.NewDec 12) 20 2 ])
    (Fixtures.ctxAtMilli 30) Fixtures.btcNusd
    VpoolTypes.TwapCalcOption_QUOTE_ASSET_SWAP
    VpoolTypes.Direction_REMOVE_FROM_POOL (Dec.NewDec 10)
    (20 * Time.Millisecond)
  = Ok (Dec.mk 2500000000000000000) /\
  VpoolKeeper.calcTwap
    (Fixtures.testKeeper
       [ Fixtures.snapshot (Dec.NewDec 60) (Dec.NewDec 10) 10 1;
         Fixtures.snapshot (Dec.NewDec 30) (Dec.NewDec 20) 20 2 ])
    (Fixtures.ctxAtMilli 30) Fixtures.btcNusd
    VpoolTypes.TwapCalcOption_BASE_ASSET_SWAP
    VpoolTypes.Direction_ADD_TO_POOL (Dec.NewDec 10) (20 * Time.Millisecond)
  = Ok (Dec.NewDec 20) /\
  VpoolKeeper.calcTwap
    (Fixtures.testKeeper
       [ Fixtures.snapshot (Dec.NewDec 60) (Dec.NewDec 10) 10 1;
         Fixtures.snapshot (Dec.NewDec 75) (Dec.NewDec 8) 20 2 ])
    (Fixtures.ctxAtMilli 30) Fixtures.btcNusd
    VpoolTypes.TwapCalcOption_BASE_ASSET_SWAP
    VpoolTypes.Direction_REMOVE_FROM_POOL (Dec.NewDec 2)
    (20 * Time.Millisecond)
  = Ok (Dec.NewDec 20).
Proof. repeat split; vm_compute; reflexivity. Qed.

(** C6 (as amended).  On a history of one snapshot, stored under counter 0
    and with a price, calcTwap returns exactly that price whenever the
    elapsed time of the snapshot is not zero, whatever the lookback interval
    otherwise; when it is zero (a lookback of zero, a snapshot taken at the
    block time) the division panics.  For the spot option the price is the
    snapshot's quote reserve over its base reserve. *)
Theorem calcTwap_single_snapshot :
  forall (k : VpoolKeeper.Keeper) (ctx : VpoolKeeper.Context) (pair : string)
         (option : VpoolTypes.TwapCalcOption) (dir : VpoolTypes.Direction)
         (amount : Dec.t) (lookbackInterval : Time.Duration)
         (s : VpoolTypes.ReserveSnapshot) (price : Dec.t),
    let elapsedMs :=
      TwapSpec.elapsedMs (VpoolKeeper.lowerLimit ctx lookbackInterval)
                         (Time.UnixMilli (VpoolKeeper.BlockTime ctx)) s in
    VpoolKeeper.getSnapshotCounter k pair = Some 0%N ->
    VpoolKeeper.snapshots k !! (pair, 0%N) = Some s ->
    VpoolKeeper.getPriceWithSnapshot
      s {| VpoolKeeper.optPair := pair;
           VpoolKeeper.twapCalcOption := option;
           VpoolKeeper.direction := dir;
           VpoolKeeper.assetAmount := amount |} = Ok price ->
    (elapsedMs <> 0 ->
     VpoolKeeper.calcTwap k ctx pair option dir amount lookbackInterval
     = Ok price) /\
    (elapsedMs = 0 ->
     VpoolKeeper.calcTwap k ctx pair option dir amount lookbackInterval
     = Panic PanicDivisionByZero) /\
    (option = VpoolTypes.TwapCalcOption_SPOT ->
     Dec.Quo (VpoolTypes.snapQuoteAssetReserve s)
             (VpoolTypes.snapBaseAssetReserve s) = Ok price).
Proof.
  intros k ctx pair option dir amount lookbackInterval s price elapsedMs
         Hcounter Hs Hprice.
  assert (Hloop :
    VpoolKeeper.calcTwap k ctx pair option dir amount lookbackInterval
    = Dec.QuoInt64 (Dec.MulInt64 price elapsedMs) elapsedMs).
  { unfold VpoolKeeper.calcTwap. rewrite Hcounter.
    change (Z.to_nat (Int64.of_uint64 0 + 1)) with 1%nat.
    cbn [VpoolKeeper.twapLoop]. change (N.of_nat 0) with 0%N.
    unfold VpoolKeeper.getSnapshot.
    rewrite Hs. cbn [bind]. rewrite Hprice. cbn [bind].
    fold (TwapSpec.elapsedMs (VpoolKeeper.lowerLimit ctx lookbackInterval)
                             (Time.UnixMilli (VpoolKeeper.BlockTime ctx)) s).
    fold elapsedMs.
    assert (Hacc : Int64.add 0 elapsedMs = elapsedMs).
    { unfold Int64.add. rewrite Z.add_0_l. apply wrap_id.
      unfold elapsedMs, TwapSpec.elapsedMs, Int64.sub.
      destruct (_ <=? _); apply wrap_in_range. }
    rewrite Hacc.
    destruct (VpoolTypes.TimestampMs s
              <=? VpoolKeeper.lowerLimit ctx lookbackInterval);
      cbn [bind fst snd]; unfold Dec.Add, Dec.ZeroDec; cbn [Dec.i];
      rewrite Z.add_0_l; reflexivity. }
  rewrite Hloop. split; [|split].
  - intros Hnz. unfold Dec.MulInt64.
    change (Dec.mk (Dec.i price * elapsedMs))
      with (Dec.MulInt64 price elapsedMs).
    apply QuoInt64_MulInt64. exact Hnz.
  - intros ->. reflexivity.
  - intros ->. exact Hprice.
Qed.

Lemma calcTwap_single_snapshot_witness :
  VpoolKeeper.calcTwap
    (Fixtures.bareKeeper
       [Fixtures.snapshot (Dec.NewDec 90) (Dec.NewDec 10) 10 1])
    (Fixtures.ctxAtMilli 30) Fixtures.btcNusd VpoolTypes.TwapCalcOption_SPOT
    VpoolTypes.Direction_ADD_TO_POOL Dec.ZeroDec (5 * Time.Millisecond)
  = Ok (Dec.NewDec 9).
Proof.
  apply (proj1 (calcTwap_single_snapshot
                  (Fixtures.bareKeeper
                     [Fixtures.snapshot (Dec.NewDec 90) (Dec.NewDec 10) 10 1])
                  (Fixtures.ctxAtMilli 30) Fixtures.btcNusd
                  VpoolTypes.TwapCalcOption_SPOT
                  VpoolTypes.Direction_ADD_TO_POOL Dec.ZeroDec
                  (5 * Time.Millisecond)
                  (Fixtures.snapshot (Dec.NewDec 90) (Dec.NewDec 10) 10 1)
                  (Dec.NewDec 9)
                  ltac:(vm_compute; reflexivity)
                  ltac:(vm_compute; reflexivity)
                  ltac:(vm_compute; reflexivity))).
  vm_compute. discriminate.
Defined.

(** C6, the claim as worded fails.  One snapshot (90, 10): taken at 10 ms
    and read at 30 ms with a lookback of zero, or taken at 30 ms and read at
    30 ms with a lookback of 20 ms, calcTwap does not return its price 9: the
    elapsed time is zero and the division panics. *)
Lemma calcTwap_single_snapshot_zero_elapsed :
  Dec.Quo (Dec.NewDec 90) (Dec.NewDec 10) = Ok (Dec.NewDec 9) /\
  VpoolKeeper.calcTwap
    (Fixtures.bareKeeper
       [Fixtures.snapshot (Dec.NewDec 90) (Dec.NewDec 10) 10 1])
    (Fixtures.ctxAtMilli 30) Fixtures.btcNusd VpoolTypes.TwapCalcOption_SPOT
    VpoolTypes.Direction_ADD_TO_POOL Dec.ZeroDec 0
  = Panic PanicDivisionByZero /\
  VpoolKeeper.calcTwap
    (Fixtures.bareKeeper
       [Fixtures.snapshot (Dec.NewDec 90) (Dec.NewDec 10) 30 1])
    (Fixtures.ctxAtMilli 30) Fixtures.btcNusd VpoolTypes.TwapCalcOption_SPOT
    VpoolTypes.Direction_ADD_TO_POOL Dec.ZeroDec (20 * Time.Millisecond)
  = Panic PanicDivisionByZero.
Proof. repeat split; vm_compute; reflexivity. Qed.

(** ** The divisor of the TWAP *)

Lemma nonDecreasing_last_le (hist : list VpoolTypes.ReserveSnapshot) :
  forall newest oldest : VpoolTypes.ReserveSnapshot,
    TwapSpec.nonDecreasing (newest :: hist) ->
    last (newest :: hist) = Some oldest ->
    VpoolTypes.TimestampMs oldest <= VpoolTypes.TimestampMs newest.
Proof.
  induction hist as [|s rest IH]; intros newest oldest Hsorted Hlast.
  - injection Hlast as <-. lia.
  - destruct Hsorted as [Hle Hrest].
    change (last (newest :: s :: rest)) with (last (s :: rest)) in Hlast.
    pose proof (IH s oldest Hrest Hlast). lia.
Qed.

(** On a history whose timestamps do not decrease with the counter, the
    elapsed times add up to the time from the later of the lower bound and
    the oldest snapshot to where the walk starts. *)
Lemma sum_elapsed_nonDecreasing (lowerBound : Z)
    (hist : list VpoolTypes.ReserveSnapshot) :
  forall (prev : Z) (oldest : VpoolTypes.ReserveSnapshot),
    last hist = Some oldest ->
    TwapSpec.nonDecreasing hist ->
    TwapSpec.small lowerBound ->
    TwapSpec.small prev ->
    Forall (fun s => TwapSpec.small (VpoolTypes.TimestampMs s)) hist ->
    TwapSpec.sumZ
      (TwapSpec.elapsed lowerBound prev (TwapSpec.visited lowerBound hist))
    = prev - Z.max lowerBound (VpoolTypes.TimestampMs oldest).
Proof.
  induction hist as [|s rest IH];
    intros prev oldest Hlast Hsorted Hlb Hprev Hsmall; [discriminate|].
  pose proof (nonDecreasing_last_le _ _ _ Hsorted Hlast) as Hold.
  inversion Hsmall as [|? ? Hs Hrest]; subst.
  cbn [TwapSpec.visited].
  destruct (Z.leb_spec (VpoolTypes.TimestampMs s) lowerBound) as [Hclip|Hnew].
  - cbn [TwapSpec.elapsed TwapSpec.sumZ]. unfold TwapSpec.elapsedMs.
    destruct (Z.leb_spec (VpoolTypes.TimestampMs s) lowerBound); [|lia].
    rewrite sub_small by assumption. lia.
  - cbn [TwapSpec.elapsed TwapSpec.sumZ]. unfold TwapSpec.elapsedMs.
    destruct (Z.leb_spec (VpoolTypes.TimestampMs s) lowerBound); [lia|].
    rewrite sub_small by assumption.
    destruct rest as [|s' rest'].
    + injection Hlast as <-. cbn. lia.
    + change (last (s :: s' :: rest')) with (last (s' :: rest')) in Hlast.
      destruct Hsorted as [_ Hsorted'].
      rewrite (IH (VpoolTypes.TimestampMs s) oldest Hlast Hsorted' Hlb Hs
                  Hrest).
      lia.
Qed.

Lemma lowerLimit_before_block_time (ctx : VpoolKeeper.Context)
    (lookbackInterval : Time.Duration) :
  Time.Millisecond <= lookbackInterval <= Int64.max_signed ->
  TwapSpec.small (VpoolKeeper.BlockTime ctx / 1000000) ->
  TwapSpec.small ((VpoolKeeper.BlockTime ctx - lookbackInterval) / 1000000) ->
  Time.UnixMilli (VpoolKeeper.BlockTime ctx)
  = VpoolKeeper.BlockTime ctx / 1000000 /\
  VpoolKeeper.lowerLimit ctx lookbackInterval
  = (VpoolKeeper.BlockTime ctx - lookbackInterval) / 1000000 /\
  VpoolKeeper.lowerLimit ctx lookbackInterval
  < Time.UnixMilli (VpoolKeeper.BlockTime ctx).
Proof.
  unfold Time.Millisecond, Int64.max_signed. intros Hl Hnow Hlb.
  assert (Hn : Time.UnixMilli (VpoolKeeper.BlockTime ctx)
               = VpoolKeeper.BlockTime ctx / 1000000).
  { unfold Time.UnixMilli. apply wrap_id, small_in_range, Hnow. }
  assert (Hb : VpoolKeeper.lowerLimit ctx lookbackInterval
               = (VpoolKeeper.BlockTime ctx - lookbackInterval) / 1000000).
  { unfold VpoolKeeper.lowerLimit, Time.UnixMilli, Time.Add, Int64.neg.
    rewrite (wrap_id (- lookbackInterval)).
    - rewrite Z.add_opp_r. apply wrap_id, small_in_range, Hlb.
    - unfold Int64.in_range, Int64.min_signed, Int64.max_signed. lia. }
  rewrite Hn, Hb. repeat split.
  assert ((VpoolKeeper.BlockTime ctx - lookbackInterval) / 1000000
          <= (VpoolKeeper.BlockTime ctx - 1000000) / 1000000)
    by (apply Z.div_le_mono; lia).
  replace (VpoolKeeper.BlockTime ctx - 1000000)
    with (VpoolKeeper.BlockTime ctx + (-1) * 1000000) in H by lia.
  rewrite Z.div_add in H by lia. lia.
Qed.

(** C10 (as amended).  calcTwap divides by cumulativePeriodMs without a
    guard.  When the counter lookup succeeds, the history is gapless with a
    price for every visited snapshot and timestamps that do not decrease
    with the counter, the lookback interval is at least one millisecond, the
    latest snapshot is strictly earlier than the block time, and the
    millisecond values are far from the int64 bounds, the divisor is the
    time from the later of the lower bound and the oldest snapshot to the
    block time: strictly positive, so the division returns. *)
Theorem calcTwap_period_positive :
  forall (k : VpoolKeeper.Keeper) (ctx : VpoolKeeper.Context) (pair : string)
         (option : VpoolTypes.TwapCalcOption) (dir : VpoolTypes.Direction)
         (amount : Dec.t) (lookbackInterval : Time.Duration)
         (latest : N) (hist : list VpoolTypes.ReserveSnapshot)
         (prices : list Dec.t) (newest oldest : VpoolTypes.ReserveSnapshot),
    let opts :=
      {| VpoolKeeper.optPair := pair;
         VpoolKeeper.twapCalcOption := option;
         VpoolKeeper.direction := dir;
         VpoolKeeper.assetAmount := amount |} in
    let lowerBound := VpoolKeeper.lowerLimit ctx lookbackInterval in
    let now := Time.UnixMilli (VpoolKeeper.BlockTime ctx) in
    VpoolKeeper.getSnapshotCounter k pair = Some latest ->
    (latest < 2 ^ 63)%N ->
    TwapSpec.history k pair (S (N.to_nat latest)) = map Some hist ->
    map (fun s => VpoolKeeper.getPriceWithSnapshot s opts)
        (TwapSpec.visited lowerBound hist)
    = map Ok prices ->
    Time.Millisecond <= lookbackInterval <= Int64.max_signed ->
    head hist = Some newest ->
    last hist = Some oldest ->
    VpoolTypes.TimestampMs newest < now ->
    TwapSpec.nonDecreasing hist ->
    TwapSpec.small (VpoolKeeper.BlockTime ctx / 1000000) ->
    TwapSpec.small
      ((VpoolKeeper.BlockTime ctx - lookbackInterval) / 1000000) ->
    Forall (fun s => TwapSpec.small (VpoolTypes.TimestampMs s)) hist ->
    exists (cumulativePrice : Dec.t) (cumulativePeriodMs : Z),
      VpoolKeeper.twapLoop k pair opts lowerBound
                           (Z.to_nat (Int64.of_uint64 latest + 1))
                           Dec.ZeroDec 0 now
      = Ok (cumulativePrice, cumulativePeriodMs) /\
      cumulativePeriodMs
      = now - Z.max lowerBound (VpoolTypes.TimestampMs oldest) /\
      0 < cumulativePeriodMs /\
      VpoolKeeper.calcTwap k ctx pair option dir amount lookbackInterval
      = Ok (Dec.mk (Z.quot (Dec.i cumulativePrice) cumulativePeriodMs)).
Proof.
  intros k ctx pair option dir amount lookbackInterval latest hist prices
         newest oldest opts lowerBound now Hcounter Hlatest Hhist Hprices
         Hlook Hhead Hlast Hnewest Hsorted Hnow Hlb Hsmall.
  destruct (lowerLimit_before_block_time ctx lookbackInterval Hlook Hnow Hlb)
    as (Hn & Hb & Hlt).
  fold lowerBound now in Hn, Hb, Hlt.
  assert (Hsmall_now : TwapSpec.small now) by (rewrite Hn; exact Hnow).
  assert (Hsmall_lb : TwapSpec.small lowerBound) by (rewrite Hb; exact Hlb).
  pose proof (sum_elapsed_nonDecreasing lowerBound hist now oldest Hlast
                Hsorted Hsmall_lb Hsmall_now Hsmall) as Hsum.
  assert (Hold : VpoolTypes.TimestampMs oldest
                 <= VpoolTypes.TimestampMs newest).
  { destruct hist as [|s rest]; [discriminate|].
    injection Hhead as ->. exact (nonDecreasing_last_le _ _ _ Hsorted Hlast). }
  assert (Hpos : 0 < now - Z.max lowerBound (VpoolTypes.TimestampMs oldest))
    by lia.
  assert (Hwrap : Int64.wrap
                    (now - Z.max lowerBound (VpoolTypes.TimestampMs oldest))
                  = now - Z.max lowerBound (VpoolTypes.TimestampMs oldest)).
  { apply wrap_id. unfold TwapSpec.small in *.
    unfold Int64.in_range, Int64.min_signed, Int64.max_signed. lia. }
  eexists _, _. split; [|split; [|split]].
  - rewrite (of_uint64_small _ Hlatest).
    rewrite (twapLoop_walk _ _ _ _ _ hist prices _ _ _ Hhist Hprices)
      by (vm_compute; split; discriminate).
    rewrite !Z.add_0_l. rewrite Hsum, Hwrap. reflexivity.
  - reflexivity.
  - exact Hpos.
  - rewrite (calcTwap_as_walk _ _ _ _ _ _ _ _ _ _ Hcounter Hlatest Hhist
                              Hprices).
    fold lowerBound now. unfold TwapSpec.totalMs. rewrite Hsum, Hwrap.
    unfold Dec.QuoInt64.
    destruct (Z.eqb_spec
                (now - Z.max lowerBound (VpoolTypes.TimestampMs oldest)) 0);
      [lia|].
    reflexivity.
Qed.

Lemma calcTwap_period_positive_witness :
  exists (cumulativePrice : Dec.t) (cumulativePeriodMs : Z),
    VpoolKeeper.twapLoop
      (Fixtures.testKeeper Fixtures.spotSnapshots) Fixtures.btcNusd
      {| VpoolKeeper.optPair := Fixtures.btcNusd;
         VpoolKeeper.twapCalcOption := VpoolTypes.TwapCalcOption_SPOT;
         VpoolKeeper.direction := VpoolTypes.Direction_ADD_TO_POOL;
         VpoolKeeper.assetAmount := Dec.ZeroDec |}
      (VpoolKeeper.lowerLimit (Fixtures.ctxAtMilli 35)
                              (24 * Time.Millisecond))
      (Z.to_nat (Int64.of_uint64 3 + 1)) Dec.ZeroDec 0
      (Time.UnixMilli (VpoolKeeper.BlockTime (Fixtures.ctxAtMilli 35)))
    = Ok (cumulativePrice, cumulativePeriodMs) /\
    cumulativePeriodMs
    = Time.UnixMilli (VpoolKeeper.BlockTime (Fixtures.ctxAtMilli 35))
      - Z.max (VpoolKeeper.lowerLimit (Fixtures.ctxAtMilli 35)
                                      (24 * Time.Millisecond))
              (VpoolTypes.TimestampMs
                 (Fixtures.snapshot Dec.ZeroDec Dec.ZeroDec 0 0)) /\
    0 < cumulativePeriodMs /\
    VpoolKeeper.calcTwap
      (Fixtures.testKeeper Fixtures.spotSnapshots) (Fixtures.ctxAtMilli 35)
      Fixtures.btcNusd VpoolTypes.TwapCalcOption_SPOT
      VpoolTypes.Direction_ADD_TO_POOL Dec.ZeroDec (24 * Time.Millisecond)
    = Ok (Dec.mk (Z.quot (Dec.i cumulativePrice) cumulativePeriodMs)).
Proof.
  apply (calcTwap_period_positive
           (Fixtures.testKeeper Fixtures.spotSnapshots)
           (Fixtures.ctxAtMilli 35) Fixtures.btcNusd
           VpoolTypes.TwapCalcOption_SPOT VpoolTypes.Direction_ADD_TO_POOL
           Dec.ZeroDec (24 * Time.Millisecond) 3%N
           [ Fixtures.snapshot (Dec.NewDec 95) (Dec.NewDec 10) 30 3;
             Fixtures.snapshot (Dec.NewDec 85) (Dec.NewDec 10) 20 2;
             Fixtures.snapshot (Dec.NewDec 90) (Dec.NewDec 10) 10 1;
             Fixtures.snapshot Dec.ZeroDec Dec.ZeroDec 0 0 ]
           [ Dec.mk 9500000000000000000; Dec.mk 8500000000000000000;
             Dec.NewDec 9 ]
           (Fixtures.snapshot (Dec.NewDec 95) (Dec.NewDec 10) 30 3)
           (Fixtures.snapshot Dec.ZeroDec Dec.ZeroDec 0 0)).
  - vm_compute. reflexivity.
  - vm_compute. reflexivity.
  - vm_compute. reflexivity.
  - vm_compute. reflexivity.
  - vm_compute. split; discriminate.
  - reflexivity.
  - reflexivity.
  - vm_compute. reflexivity.
  - cbn. lia.
  - vm_compute. split; [discriminate|reflexivity].
  - vm_compute. split; [discriminate|reflexivity].
  - repeat constructor; vm_compute; discriminate.
Defined.

(** C10, the claim as worded fails.  A block time of 30.7 ms, a lookback of
    half a millisecond, one snapshot (90, 10) taken at 10 ms: the counter is
    found, the lookback is strictly positive, the snapshot is strictly
    earlier than the block time; the lower bound and the block time are both
    30 in milliseconds, cumulativePeriodMs is zero and the division
    panics. *)
Lemma calcTwap_sub_millisecond_lookback :
  let k :=
    Fixtures.bareKeeper
      [Fixtures.snapshot (Dec.NewDec 90) (Dec.NewDec 10) 10 1] in
  let ctx :=
    {| VpoolKeeper.BlockTime := 30700000; VpoolKeeper.BlockHeight := 1 |} in
  let lookbackInterval := 500000 in
  VpoolKeeper.getSnapshotCounter k Fixtures.btcNusd = Some 0%N /\
  0 < lookbackInterval /\
  10 < Time.UnixMilli (VpoolKeeper.BlockTime ctx) /\
  VpoolKeeper.twapLoop
    k Fixtures.btcNusd
    {| VpoolKeeper.optPair := Fixtures.btcNusd;
       VpoolKeeper.twapCalcOption := VpoolTypes.TwapCalcOption_SPOT;
       VpoolKeeper.direction := VpoolTypes.Direction_ADD_TO_POOL;
       VpoolKeeper.assetAmount := Dec.ZeroDec |}
    (VpoolKeeper.lowerLimit ctx lookbackInterval) 1 Dec.ZeroDec 0
    (Time.UnixMilli (VpoolKeeper.BlockTime ctx))
  = Ok (Dec.ZeroDec, 0) /\
  VpoolKeeper.calcTwap k ctx Fixtures.btcNusd VpoolTypes.TwapCalcOption_SPOT
                       VpoolTypes.Direction_ADD_TO_POOL Dec.ZeroDec
                       lookbackInterval
  = Panic PanicDivisionByZero.
Proof. repeat split; vm_compute; reflexivity. Qed.

(** The divisor is zero as well with a lookback of zero, and with a single
    snapshot taken at the block time. *)
Example calcTwap_zero_divisor_cases :
  VpoolKeeper.calcTwap
    (Fixtures.testKeeper Fixtures.spotSnapshots) (Fixtures.ctxAtMilli 35)
    Fixtures.btcNusd VpoolTypes.TwapCalcOption_SPOT
    VpoolTypes.Direction_ADD_TO_POOL Dec.ZeroDec 0
  = Panic PanicDivisionByZero /\
  VpoolKeeper.calcTwap
    (Fixtures.bareKeeper
       [Fixtures.snapshot (Dec.NewDec 90) (Dec.NewDec 10) 30 1])
    (Fixtures.ctxAtMilli 30) Fixtures.btcNusd VpoolTypes.TwapCalcOption_SPOT
    VpoolTypes.Direction_ADD_TO_POOL Dec.ZeroDec (20 * Time.Millisecond)
  = Panic PanicDivisionByZero.
Proof. repeat split; vm_compute; reflexivity. Qed.

(** ** Pool share denominations and initial pool assets *)

(** X1.  Distinct pool ids have distinct base denominations and distinct
    display denominations, and no base denomination is a display
    denomination. *)
Theorem pool_share_denoms_distinct :
  forall a b : N,
    (DexTypes.GetPoolShareBaseDenom a = DexTypes.GetPoolShareBaseDenom b ->
     a = b) /\
    (DexTypes.GetPoolShareDisplayDenom a
     = DexTypes.GetPoolShareDisplayDenom b -> a = b) /\
    DexTypes.GetPoolShareBaseDenom a <> DexTypes.GetPoolShareDisplayDenom b.
Proof.
  intros a b.
  unfold DexTypes.GetPoolShareBaseDenom, DexTypes.GetPoolShareDisplayDenom,
    DexTypes.formatUint.
  repeat split.
  - intros H. cbn in H. injection H as H. exact (pretty_N_inj _ _ H).
  - intros H. cbn in H. injection H as H. exact (pretty_N_inj _ _ H).
  - cbn. discriminate.
Qed.

Lemma pool_share_denoms_distinct_witness :
  DexTypes.GetPoolShareBaseDenom 7 = "matrix/pool/7" /\
  DexTypes.GetPoolShareDisplayDenom 120 = "MATRIX-POOL-120" /\
  (DexTypes.GetPoolShareBaseDenom 7 = DexTypes.GetPoolShareBaseDenom 7 ->
   7%N = 7%N).
Proof.
  split; [vm_compute; reflexivity|]. split; [vm_compute; reflexivity|].
  apply (proj1 (pool_share_denoms_distinct 7 7)).
Defined.

Section InitialPoolAssets.
Import DexTypes.

Variable Validate : PoolAsset -> option Error.
Variable GuaranteedWeightPrecision : Z.
Variable sortSlice :
  list PoolAsset -> (PoolAsset -> PoolAsset -> bool) -> list PoolAsset.

Let scale := scaleWeight GuaranteedWeightPrecision.
Let loop := scaleLoop Validate GuaranteedWeightPrecision.
Let setInitial :=
  SetInitialPoolAssets Validate GuaranteedWeightPrecision sortSlice.

Lemma readExists_insert (m : gmap string bool) (d d' : string) :
  readExists (<[d := true]> m) d' = true
  <-> d = d' \/ readExists m d' = true.
Proof.
  unfold readExists. destruct (decide (d = d')) as [->|Hne].
  - rewrite lookup_insert_eq. cbn. tauto.
  - rewrite lookup_insert_ne by assumption. split; [tauto|].
    intros [?|?]; [contradiction|assumption].
Qed.

(** The loop on assets that all validate and whose denominations are new
    and pairwise distinct: the scaled assets are appended in order and their
    weights added. *)
Lemma scaleLoop_ok (assets : list PoolAsset) :
  forall (m : gmap string bool) (total : Z) (scaled : list PoolAsset),
    Forall (fun a => Validate a = None) assets ->
    List.NoDup (map denomOf assets) ->
    Forall (fun a => readExists m (denomOf a) = false) assets ->
    loop assets m total scaled
    = Val (scaled ++ map scale assets,
           total + TwapSpec.sumZ (map Weight (map scale assets))).
Proof.
  induction assets as [|a rest IH]; intros m total scaled Hvalid Hnodup Hnew.
  - cbn. rewrite app_nil_r, Z.add_0_r. reflexivity.
  - inversion Hvalid as [|? ? Ha Hrest]; subst.
    apply List.NoDup_cons_iff in Hnodup as [Hnotin Hnodup'].
    inversion Hnew as [|? ? Hna Hnew']; subst.
    unfold loop. cbn [scaleLoop]. rewrite Ha, Hna. fold loop.
    rewrite IH; [| assumption | assumption |].
    + cbn [map TwapSpec.sumZ]. rewrite <- app_assoc. cbn [app].
      fold scale. do 2 f_equal. lia.
    + apply List.Forall_forall. intros b Hb.
      destruct (readExists (<[denomOf a := true]> m) (denomOf b)) eqn:Hs;
        [|reflexivity].
      apply readExists_insert in Hs as [Heq|Hs].
      * exfalso. apply Hnotin. rewrite Heq. apply in_map. exact Hb.
      * rewrite List.Forall_forall in Hnew'. rewrite (Hnew' b Hb) in Hs.
        discriminate.
Qed.

Lemma scaleLoop_ok_inv (assets : list PoolAsset) :
  forall (m : gmap string bool) (total : Z) (scaled : list PoolAsset)
         (result : list PoolAsset * Z),
    loop assets m total scaled = Val result ->
    Forall (fun a => Validate a = None) assets /\
    List.NoDup (map denomOf assets) /\
    Forall (fun a => readExists m (denomOf a) = false) assets.
Proof.
  induction assets as [|a rest IH]; intros m total scaled result Hloop.
  - repeat split; constructor.
  - unfold loop in Hloop. cbn [scaleLoop] in Hloop.
    destruct (Validate a) eqn:Ha; [discriminate|].
    destruct (readExists m (denomOf a)) eqn:Hna; [discriminate|].
    fold loop in Hloop. apply IH in Hloop as (Hvalid & Hnodup & Hnew).
    assert (Hrest : forall b, In b rest ->
                      denomOf a <> denomOf b /\
                      readExists m (denomOf b) = false).
    { intros b Hb. rewrite List.Forall_forall in Hnew. specialize (Hnew b Hb).
      split.
      - intros Heq.
        assert (readExists (<[denomOf a := true]> m) (denomOf b) = true)
          by (apply readExists_insert; left; exact Heq).
        congruence.
      - destruct (readExists m (denomOf b)) eqn:Hb'; [|reflexivity].
        assert (readExists (<[denomOf a := true]> m) (denomOf b) = true)
          by (apply readExists_insert; right; exact Hb').
        congruence. }
    repeat split.
    + constructor; assumption.
    + apply List.NoDup_cons_iff. split; [|assumption].
      intros Hin. apply in_map_iff in Hin as (b & Heq & Hb).
      destruct (Hrest b Hb) as [Hne _]. congruence.
    + constructor; [assumption|].
      apply List.Forall_forall. intros b Hb. apply (Hrest b Hb).
Qed.

Lemma scaleLoop_fail (assets : list PoolAsset) :
  forall (m : gmap string bool) (total : Z) (scaled : list PoolAsset)
         (e : Error),
    loop assets m total scaled = Fail e ->
    (exists a, In a assets /\ Validate a = Some e) \/
    e = ErrExternal "same PoolAsset already exists".
Proof.
  induction assets as [|a rest IH]; intros m total scaled e Hloop;
    [discriminate|].
  unfold loop in Hloop. cbn [scaleLoop] in Hloop.
  destruct (Validate a) eqn:Ha.
  - injection Hloop as <-. left. exists a. split; [left; reflexivity|exact Ha].
  - destruct (readExists m (denomOf a)); [injection Hloop as <-; tauto|].
    fold loop in Hloop. apply IH in Hloop as [(b & Hb & Hv)|He];
      [left; exists b; split; [right; exact Hb|exact Hv]|right; exact He].
Qed.

Lemma SetInitialPoolAssets_ok_inv (p : Pool) (assets : list PoolAsset) :
  snd (setInitial p assets) = None ->
  Forall (fun a => Validate a = None) assets /\
  List.NoDup (map denomOf assets).
Proof.
  unfold setInitial, SetInitialPoolAssets. fold loop.
  destruct (loop assets ∅ 0 []) as [[scaled total]|e] eqn:Hloop;
    [|discriminate].
  intros _. apply scaleLoop_ok_inv in Hloop as (Hvalid & Hnodup & _).
  split; assumption.
Qed.

(** X2.  SetInitialPoolAssets returns no error exactly when every asset
    validates and no two assets have the same denomination. *)
Theorem SetInitialPoolAssets_succeeds_iff :
  forall (p : Pool) (assets : list PoolAsset),
    snd (setInitial p assets) = None
    <-> Forall (fun a => Validate a = None) assets /\
        List.NoDup (map denomOf assets).
Proof.
  intros p assets. split; [apply SetInitialPoolAssets_ok_inv|].
  unfold setInitial, SetInitialPoolAssets. fold loop.
  intros [Hvalid Hnodup]. rewrite scaleLoop_ok; [reflexivity|assumption..|].
  apply List.Forall_forall. intros a _. reflexivity.
Qed.

(** X3.  A failing SetInitialPoolAssets leaves the pool as it was; its error
    is the validation error of one of the assets or the duplicate error, and
    when every asset validates it is the duplicate error. *)
Theorem SetInitialPoolAssets_failure :
  forall (p : Pool) (assets : list PoolAsset) (e : Error),
    snd (setInitial p assets) = Some e ->
    fst (setInitial p assets) = p /\
    ((exists a, In a assets /\ Validate a = Some e) \/
     e = ErrExternal "same PoolAsset already exists") /\
    (Forall (fun a => Validate a = None) assets ->
     e = ErrExternal "same PoolAsset already exists" /\
     ~ List.NoDup (map denomOf assets)).
Proof.
  intros p assets e. unfold setInitial, SetInitialPoolAssets. fold loop.
  destruct (loop assets ∅ 0 []) as [[scaled total]|e'] eqn:Hloop;
    [discriminate|].
  cbn [fst snd]. intros [= ->]. split; [reflexivity|].
  pose proof (scaleLoop_fail _ _ _ _ _ Hloop) as Hcause.
  split; [exact Hcause|]. intros Hvalid. split.
  - destruct Hcause as [(a & Ha & Hv)|He]; [|exact He].
    rewrite List.Forall_forall in Hvalid. rewrite (Hvalid a Ha) in Hv.
    discriminate.
  - intros Hnodup.
    rewrite (scaleLoop_ok assets ∅ 0 [] Hvalid Hnodup) in Hloop;
      [discriminate|].
    apply List.Forall_forall. intros a _. reflexivity.
Qed.

Hypothesis sortSlice_permutes :
  forall (l : list PoolAsset) (less : PoolAsset -> PoolAsset -> bool),
    Permutation (sortSlice l less) l.
Hypothesis sortSlice_orders :
  forall l : list PoolAsset,
    Sorted (fun a b => lessByDenom b a = false) (sortSlice l lessByDenom).

Lemma not_less_distinct_lt (a b : PoolAsset) :
  lessByDenom b a = false -> denomOf a <> denomOf b ->
  String.compare (denomOf a) (denomOf b) = Lt.
Proof.
  unfold lessByDenom, Compare. intros Hless Hne.
  rewrite String.compare_antisym in Hless.
  destruct (String.compare (denomOf a) (denomOf b)) eqn:Hc;
    [|reflexivity|discriminate].
  apply String.compare_eq_iff in Hc. contradiction.
Qed.

Lemma sorted_distinct_strict (l : list PoolAsset) :
  Sorted (fun a b => lessByDenom b a = false) l ->
  List.NoDup (map denomOf l) ->
  Sorted (fun a b => String.compare (denomOf a) (denomOf b) = Lt) l.
Proof.
  induction 1 as [|a l Hsorted IH Hhd]; intros Hnodup; [constructor|].
  cbn [map] in Hnodup. apply List.NoDup_cons_iff in Hnodup as [Hnotin Hnodup].
  constructor; [apply IH; assumption|].
  destruct Hhd as [|b l' Hab]; constructor.
  apply not_less_distinct_lt; [exact Hab|].
  intros Heq. apply Hnotin. cbn [map]. left. symmetry. exact Heq.
Qed.

Lemma sum_weights_permutation (l l' : list PoolAsset) :
  Permutation l l' ->
  TwapSpec.sumZ (map Weight l) = TwapSpec.sumZ (map Weight l').
Proof. induction 1; cbn [map TwapSpec.sumZ]; lia. Qed.

(** X4.  After a successful SetInitialPoolAssets the pool holds the given
    assets, each weight multiplied by GuaranteedWeightPrecision, rearranged
    into strictly increasing order of denomination; the total weight is the
    sum of the stored weights, GuaranteedWeightPrecision times the sum of
    the given ones; the rest of the pool is as it was. *)
Theorem SetInitialPoolAssets_success :
  forall (p : Pool) (assets : list PoolAsset),
    snd (setInitial p assets) = None ->
    let p' := fst (setInitial p assets) in
    Permutation (PoolAssets p') (map scale assets) /\
    Sorted (fun a b => String.compare (denomOf a) (denomOf b) = Lt)
           (PoolAssets p') /\
    TotalWeight p' = TwapSpec.sumZ (map Weight (PoolAssets p')) /\
    TotalWeight p'
    = GuaranteedWeightPrecision * TwapSpec.sumZ (map Weight assets) /\
    Id p' = Id p.
Proof.
  intros p assets Hok p'.
  apply SetInitialPoolAssets_ok_inv in Hok as [Hvalid Hnodup].
  subst p'. unfold setInitial, SetInitialPoolAssets. fold loop.
  rewrite (scaleLoop_ok assets ∅ 0 [] Hvalid Hnodup)
    by (apply List.Forall_forall; intros a _; reflexivity).
  cbn [fst PoolAssets TotalWeight Id app]. fold scale.
  unfold SortPoolAssetsByDenom.
  pose proof (sortSlice_permutes (map scale assets) lessByDenom) as Hperm.
  assert (Hdenoms : map denomOf (map scale assets) = map denomOf assets).
  { rewrite map_map. reflexivity. }
  repeat split.
  - exact Hperm.
  - apply sorted_distinct_strict; [apply sortSlice_orders|].
    apply (Permutation_NoDup
             (Permutation_sym (Permutation_map denomOf Hperm))).
    rewrite Hdenoms. exact Hnodup.
  - rewrite Z.add_0_l. symmetry. exact (sum_weights_permutation _ _ Hperm).
  - rewrite Z.add_0_l. unfold scale. clear.
    induction assets as [|a rest IH]; cbn [map TwapSpec.sumZ]; [lia|].
    rewrite IH. unfold scaleWeight at 1. cbn [Weight]. lia.
Qed.

End InitialPoolAssets.

(** The insertion sort is a [sort.Slice]: it rearranges, and it orders by
    denomination. *)
Lemma insertBy_permutes (less : DexTypes.PoolAsset -> DexTypes.PoolAsset -> bool)
    (x : DexTypes.PoolAsset) (l : list DexTypes.PoolAsset) :
  Permutation (DexTypes.insertBy less x l) (x :: l).
Proof.
  induction l as [|y rest IH]; cbn [DexTypes.insertBy]; [reflexivity|].
  destruct (less y x); [|reflexivity].
  rewrite IH. apply perm_swap.
Qed.

Lemma insertionSort_permutes
    (l : list DexTypes.PoolAsset)
    (less : DexTypes.PoolAsset -> DexTypes.PoolAsset -> bool) :
  Permutation (DexFixtures.sortSlice l less) l.
Proof.
  unfold DexFixtures.sortSlice.
  induction l as [|x rest IH]; cbn [DexTypes.insertionSort]; [reflexivity|].
  rewrite insertBy_permutes, IH. reflexivity.
Qed.

Lemma lessByDenom_asymmetric (a b : DexTypes.PoolAsset) :
  DexTypes.lessByDenom a b = true -> DexTypes.lessByDenom b a = false.
Proof.
  unfold DexTypes.lessByDenom, DexTypes.Compare.
  rewrite (String.compare_antisym (DexTypes.denomOf b)).
  destruct (String.compare (DexTypes.denomOf a) (DexTypes.denomOf b));
    cbn; congruence.
Qed.

Lemma insertBy_orders (x : DexTypes.PoolAsset)
    (l : list DexTypes.PoolAsset) :
  Sorted (fun a b => DexTypes.lessByDenom b a = false) l ->
  Sorted (fun a b => DexTypes.lessByDenom b a = false)
         (DexTypes.insertBy DexTypes.lessByDenom x l).
Proof.
  induction 1 as [|y rest Hsorted IH Hhd]; cbn [DexTypes.insertBy].
  - repeat constructor.
  - destruct (DexTypes.lessByDenom y x) eqn:Hyx.
    + constructor; [exact IH|].
      destruct Hhd as [|z rest' Hyz]; cbn [DexTypes.insertBy].
      * constructor. apply lessByDenom_asymmetric. exact Hyx.
      * destruct (DexTypes.lessByDenom z x); constructor;
          [exact Hyz|apply lessByDenom_asymmetric; exact Hyx].
    + constructor; [constructor; assumption|]. constructor. exact Hyx.
Qed.

Lemma insertionSort_orders (l : list DexTypes.PoolAsset) :
  Sorted (fun a b => DexTypes.lessByDenom b a = false)
         (DexFixtures.sortSlice l DexTypes.lessByDenom).
Proof.
  unfold DexFixtures.sortSlice.
  induction l as [|x rest IH]; cbn [DexTypes.insertionSort]; [constructor|].
  apply insertBy_orders. exact IH.
Qed.

Lemma SetInitialPoolAssets_succeeds_iff_witness :
  snd (DexFixtures.SetInitialPoolAssets
         DexFixtures.emptyPool
         [ DexFixtures.asset "unusd" 100 2; DexFixtures.asset "uatom" 50 1 ])
  = None.
Proof.
  apply (proj2 (SetInitialPoolAssets_succeeds_iff
                  DexFixtures.Validate DexFixtures.GuaranteedWeightPrecision
                  DexFixtures.sortSlice DexFixtures.emptyPool
                  [ DexFixtures.asset "unusd" 100 2;
                    DexFixtures.asset "uatom" 50 1 ])).
  split.
  - repeat constructor.
  - apply List.NoDup_cons; [cbn; intros [H|[]]; discriminate|].
    apply List.NoDup_cons; [intros []|apply List.NoDup_nil].
Defined.

Lemma SetInitialPoolAssets_failure_witness :
  fst (DexFixtures.SetInitialPoolAssets
         DexFixtures.emptyPool
         [ DexFixtures.asset "unusd" 100 2; DexFixtures.asset "unusd" 50 1 ])
  = DexFixtures.emptyPool.
Proof.
  apply (proj1 (SetInitialPoolAssets_failure
                  DexFixtures.Validate DexFixtures.GuaranteedWeightPrecision
                  DexFixtures.sortSlice DexFixtures.emptyPool
                  [ DexFixtures.asset "unusd" 100 2;
                    DexFixtures.asset "unusd" 50 1 ]
                  (ErrExternal "same PoolAsset already exists")
                  ltac:(vm_compute; reflexivity))).
Defined.

Lemma SetInitialPoolAssets_success_witness :
  let p' :=
    fst (DexFixtures.SetInitialPoolAssets
           DexFixtures.emptyPool
           [ DexFixtures.asset "unusd" 100 2;
             DexFixtures.asset "uatom" 50 1 ]) in
  DexTypes.PoolAssets p'
  = [ DexFixtures.asset "uatom" 50 1073741824;
      DexFixtures.asset "unusd" 100 2147483648 ] /\
  DexTypes.TotalWeight p'
  = DexFixtures.GuaranteedWeightPrecision
    * TwapSpec.sumZ
        (map DexTypes.Weight
             [ DexFixtures.asset "unusd" 100 2;
               DexFixtures.asset "uatom" 50 1 ]).
Proof.
  split; [vm_compute; reflexivity|].
  apply (SetInitialPoolAssets_success
           DexFixtures.Validate DexFixtures.GuaranteedWeightPrecision
           DexFixtures.sortSlice insertionSort_permutes insertionSort_orders
           DexFixtures.emptyPool
           [ DexFixtures.asset "unusd" 100 2; DexFixtures.asset "uatom" 50 1 ]
           ltac:(vm_compute; reflexivity)).
Defined.

(** ** More on the TWAP walk *)

Lemma of_uint64_beyond_int64 (n : N) :
  (2 ^ 63 <= n < 2 ^ 64)%N -> Int64.of_uint64 n = Z.of_N n - 2 ^ 64.
Proof.
  intros Hn. unfold Int64.of_uint64, Int64.wrap, Int64.half_modulus,
    Int64.modulus.
  assert (2 ^ 63 <= Z.of_N n < 2 ^ 64).
  { change (2 ^ 63) with (Z.of_N (2 ^ 63)).
    change (2 ^ 64) with (Z.of_N (2 ^ 64)). lia. }
  replace (Z.of_N n + 2 ^ 63) with (Z.of_N n - 2 ^ 63 + 1 * 2 ^ 64) by lia.
  rewrite Z_mod_plus_full, Z.mod_small; lia.
Qed.

(** X5.  A snapshot counter of 2^63 or more becomes a negative int64: the
    loop does not run, the period stays zero and calcTwap panics on the
    division, whatever the store holds. *)
Theorem calcTwap_counter_beyond_int64 :
  forall (k : VpoolKeeper.Keeper) (ctx : VpoolKeeper.Context) (pair : string)
         (option : VpoolTypes.TwapCalcOption) (dir : VpoolTypes.Direction)
         (amount : Dec.t) (lookbackInterval : Time.Duration) (latest : N),
    VpoolKeeper.getSnapshotCounter k pair = Some latest ->
    (2 ^ 63 <= latest < 2 ^ 64)%N ->
    VpoolKeeper.calcTwap k ctx pair option dir amount lookbackInterval
    = Panic PanicDivisionByZero.
Proof.
  intros k ctx pair option dir amount lookbackInterval latest Hcounter Hn.
  unfold VpoolKeeper.calcTwap. rewrite Hcounter.
  rewrite (of_uint64_beyond_int64 _ Hn).
  assert (Hz : Z.to_nat (Z.of_N latest - 2 ^ 64 + 1) = 0%nat).
  { assert (Z.of_N latest < 2 ^ 64)
      by (change (2 ^ 64) with (Z.of_N (2 ^ 64)); lia).
    lia. }
  rewrite Hz. reflexivity.
Qed.

Lemma calcTwap_counter_beyond_int64_witness :
  VpoolKeeper.calcTwap
    (VpoolKeeper.saveSnapshotCounter
       (Fixtures.testKeeper Fixtures.spotSnapshots) Fixtures.btcNusd
       (2 ^ 63)%N)
    (Fixtures.ctxAtMilli 30) Fixtures.btcNusd VpoolTypes.TwapCalcOption_SPOT
    VpoolTypes.Direction_ADD_TO_POOL Dec.ZeroDec (20 * Time.Millisecond)
  = Panic PanicDivisionByZero.
Proof.
  apply (calcTwap_counter_beyond_int64 _ _ _ _ _ _ _ (2 ^ 63)%N).
  - vm_compute. reflexivity.
  - vm_compute. split; [discriminate|reflexivity].
Defined.

(** X6.  With a lookback of zero, and a latest snapshot that has a price
    and is not later than the block time, calcTwap panics on the division:
    the lower bound is the block time, the snapshot is clipped to an elapsed
    time of zero and the walk stops there. *)
Theorem calcTwap_zero_lookback :
  forall (k : VpoolKeeper.Keeper) (ctx : VpoolKeeper.Context) (pair : string)
         (option : VpoolTypes.TwapCalcOption) (dir : VpoolTypes.Direction)
         (amount : Dec.t) (latest : N) (s : VpoolTypes.ReserveSnapshot)
         (price : Dec.t),
    VpoolKeeper.getSnapshotCounter k pair = Some latest ->
    (latest < 2 ^ 63)%N ->
    VpoolKeeper.snapshots k !! (pair, latest) = Some s ->
    VpoolKeeper.getPriceWithSnapshot
      s {| VpoolKeeper.optPair := pair;
           VpoolKeeper.twapCalcOption := option;
           VpoolKeeper.direction := dir;
           VpoolKeeper.assetAmount := amount |} = Ok price ->
    VpoolTypes.TimestampMs s <= Time.UnixMilli (VpoolKeeper.BlockTime ctx) ->
    VpoolKeeper.calcTwap k ctx pair option dir amount 0
    = Panic PanicDivisionByZero.
Proof.
  intros k ctx pair option dir amount latest s price Hcounter Hlatest Hs
         Hprice Hts.
  unfold VpoolKeeper.calcTwap. rewrite Hcounter.
  rewrite (of_uint64_small _ Hlatest).
  assert (Hlb : VpoolKeeper.lowerLimit ctx 0
                = Time.UnixMilli (VpoolKeeper.BlockTime ctx)).
  { unfold VpoolKeeper.lowerLimit, Time.Add.
    change (Int64.neg 0) with 0. rewrite Z.add_0_r. reflexivity. }
  rewrite Hlb. cbn [VpoolKeeper.twapLoop]. unfold VpoolKeeper.getSnapshot.
  rewrite N2Nat.id, Hs. cbn [bind]. rewrite Hprice. cbn [bind].
  destruct (Z.leb_spec (VpoolTypes.TimestampMs s)
                       (Time.UnixMilli (VpoolKeeper.BlockTime ctx)));
    [|lia].
  cbn [bind fst snd]. unfold Int64.sub. rewrite Z.sub_diag. reflexivity.
Qed.

Lemma calcTwap_zero_lookback_witness :
  VpoolKeeper.calcTwap
    (Fixtures.testKeeper Fixtures.spotSnapshots) (Fixtures.ctxAtMilli 35)
    Fixtures.btcNusd VpoolTypes.TwapCalcOption_SPOT
    VpoolTypes.Direction_ADD_TO_POOL Dec.ZeroDec 0
  = Panic PanicDivisionByZero.
Proof.
  apply (calcTwap_zero_lookback
           (Fixtures.testKeeper Fixtures.spotSnapshots)
           (Fixtures.ctxAtMilli 35) Fixtures.btcNusd
           VpoolTypes.TwapCalcOption_SPOT VpoolTypes.Direction_ADD_TO_POOL
           Dec.ZeroDec 3%N
           (Fixtures.snapshot (Dec.NewDec 95) (Dec.NewDec 10) 30 3)
           (Dec.mk 9500000000000000000)).
  - vm_compute. reflexivity.
  - vm_compute. reflexivity.
  - vm_compute. reflexivity.
  - vm_compute. reflexivity.
  - vm_compute. discriminate.
Defined.

Lemma twapLoop_gap (k : VpoolKeeper.Keeper) (pair : string)
    (opts : VpoolKeeper.snapshotPriceOptions) (lowerBound : Z)
    (newer : list VpoolTypes.ReserveSnapshot) :
  forall (n : nat) (older : list (option VpoolTypes.ReserveSnapshot))
         (prices : list Dec.t) (cumulativePrice : Dec.t)
         (cumulativePeriodMs prevTimestampMs : Z),
    TwapSpec.history k pair n = map Some newer ++ None :: older ->
    Forall (fun s => lowerBound < VpoolTypes.TimestampMs s) newer ->
    map (fun s => VpoolKeeper.getPriceWithSnapshot s opts) newer
    = map Ok prices ->
    VpoolKeeper.twapLoop k pair opts lowerBound n
                         cumulativePrice cumulativePeriodMs prevTimestampMs
    = Err ErrSnapshotNotFound.
Proof.
  induction newer as [|s rest IH];
    intros n older prices cp period prev Hhist Hnew Hprices.
  - destruct n as [|c]; [discriminate|].
    cbn [TwapSpec.history map app] in Hhist. injection Hhist as Hnone _.
    cbn [VpoolKeeper.twapLoop]. unfold VpoolKeeper.getSnapshot.
    rewrite Hnone. reflexivity.
  - destruct n as [|c]; [discriminate|].
    cbn [TwapSpec.history map app] in Hhist. injection Hhist as Hs Hrest.
    destruct prices as [|p ps]; [discriminate|].
    cbn [map] in Hprices. injection Hprices as Hp Hps.
    inversion Hnew as [|? ? Hts Hnew']; subst.
    cbn [VpoolKeeper.twapLoop]. unfold VpoolKeeper.getSnapshot.
    rewrite Hs. cbn [bind]. rewrite Hp. cbn [bind].
    destruct (Z.leb_spec (VpoolTypes.TimestampMs s) lowerBound); [lia|].
    exact (IH c older ps _ _ _ Hrest Hnew' Hps).
Qed.

(** X7.  A gap in the window is an error: when the snapshots from the latest
    counter down are all newer than the lower bound and have prices, and the
    next counter holds nothing, calcTwap fails with getSnapshot's error; it
    does not average over what it has read. *)
Theorem calcTwap_gap :
  forall (k : VpoolKeeper.Keeper) (ctx : VpoolKeeper.Context) (pair : string)
         (calcOption : VpoolTypes.TwapCalcOption) (dir : VpoolTypes.Direction)
         (amount : Dec.t) (lookbackInterval : Time.Duration) (latest : N)
         (newer : list VpoolTypes.ReserveSnapshot)
         (older : list (option VpoolTypes.ReserveSnapshot))
         (prices : list Dec.t),
    VpoolKeeper.getSnapshotCounter k pair = Some latest ->
    (latest < 2 ^ 63)%N ->
    TwapSpec.history k pair (S (N.to_nat latest))
    = map Some newer ++ None :: older ->
    Forall (fun s => VpoolKeeper.lowerLimit ctx lookbackInterval
                     < VpoolTypes.TimestampMs s) newer ->
    map (fun s =>
           VpoolKeeper.getPriceWithSnapshot
             s {| VpoolKeeper.optPair := pair;
                  VpoolKeeper.twapCalcOption := calcOption;
                  VpoolKeeper.direction := dir;
                  VpoolKeeper.assetAmount := amount |}) newer
    = map Ok prices ->
    VpoolKeeper.calcTwap k ctx pair calcOption dir amount lookbackInterval
    = Err ErrSnapshotNotFound.
Proof.
  intros k ctx pair calcOption dir amount lookbackInterval latest newer older
         prices Hcounter Hlatest Hhist Hnew Hprices.
  unfold VpoolKeeper.calcTwap. rewrite Hcounter.
  rewrite (of_uint64_small _ Hlatest).
  rewrite (twapLoop_gap _ _ _ _ newer _ older prices _ _ _ Hhist Hnew
                        Hprices).
  reflexivity.
Qed.

Lemma calcTwap_gap_witness :
  VpoolKeeper.calcTwap
    (VpoolKeeper.saveSnapshotCounter
       (VpoolKeeper.saveSnapshot
          Fixtures.emptyKeeper Fixtures.btcNusd 2
          (Fixtures.snapshot (Dec.NewDec 95) (Dec.NewDec 10) 30 3))
       Fixtures.btcNusd 2)
    (Fixtures.ctxAtMilli 35) Fixtures.btcNusd VpoolTypes.TwapCalcOption_SPOT
    VpoolTypes.Direction_ADD_TO_POOL Dec.ZeroDec (24 * Time.Millisecond)
  = Err ErrSnapshotNotFound.
Proof.
  apply (calcTwap_gap
           _ _ _ _ _ _ _ 2%N
           [Fixtures.snapshot (Dec.NewDec 95) (Dec.NewDec 10) 30 3]
           [None] [Dec.mk 9500000000000000000]).
  - vm_compute. reflexivity.
  - vm_compute. reflexivity.
  - vm_compute. reflexivity.
  - repeat constructor.
  - vm_compute. reflexivity.
Defined.

Lemma twapLoop_agree (k1 k2 : VpoolKeeper.Keeper) (pair : string)
    (opts : VpoolKeeper.snapshotPriceOptions) (lowerBound : Z) (c : nat)
    (s : VpoolTypes.ReserveSnapshot) :
  VpoolKeeper.snapshots k1 !! (pair, N.of_nat c) = Some s ->
  VpoolTypes.TimestampMs s <= lowerBound ->
  forall (n : nat) (cumulativePrice : Dec.t)
         (cumulativePeriodMs prevTimestampMs : Z),
    (c < n)%nat ->
    (forall m : nat,
        (c <= m < n)%nat ->
        VpoolKeeper.snapshots k1 !! (pair, N.of_nat m)
        = VpoolKeeper.snapshots k2 !! (pair, N.of_nat m)) ->
    VpoolKeeper.twapLoop k1 pair opts lowerBound n
                         cumulativePrice cumulativePeriodMs prevTimestampMs
    = VpoolKeeper.twapLoop k2 pair opts lowerBound n
                           cumulativePrice cumulativePeriodMs prevTimestampMs.
Proof.
  intros Hs Hclip. induction n as [|m IH]; intros cp period prev Hlt Hagree;
    [lia|].
  cbn [VpoolKeeper.twapLoop]. unfold VpoolKeeper.getSnapshot.
  rewrite <- (Hagree m) by lia.
  destruct (VpoolKeeper.snapshots k1 !! (pair, N.of_nat m)) as [s'|] eqn:Hm;
    [|reflexivity].
  cbn [bind]. destruct (VpoolKeeper.getPriceWithSnapshot s' opts);
    cbn [bind]; try reflexivity.
  destruct (Z.leb_spec (VpoolTypes.TimestampMs s') lowerBound) as [|Hnew];
    [reflexivity|].
  assert (m <> c) by (intros ->; rewrite Hs in Hm; injection Hm as <-; lia).
  apply IH; [lia|]. intros j Hj. apply Hagree. lia.
Qed.

(** X8.  calcTwap reads nothing older than the first snapshot at or before
    the lower bound: two stores with the same latest counter that agree on
    the snapshots from some counter up, where that counter holds a snapshot
    at or before the lower bound, give the same result. *)
Theorem calcTwap_ignores_older_snapshots :
  forall (k1 k2 : VpoolKeeper.Keeper) (ctx : VpoolKeeper.Context)
         (pair : string) (option : VpoolTypes.TwapCalcOption)
         (dir : VpoolTypes.Direction) (amount : Dec.t)
         (lookbackInterval : Time.Duration) (latest c : N)
         (s : VpoolTypes.ReserveSnapshot),
    VpoolKeeper.getSnapshotCounter k1 pair = Some latest ->
    VpoolKeeper.getSnapshotCounter k2 pair = Some latest ->
    (latest < 2 ^ 63)%N ->
    (c <= latest)%N ->
    (forall j : N,
        (c <= j <= latest)%N ->
        VpoolKeeper.snapshots k1 !! (pair, j)
        = VpoolKeeper.snapshots k2 !! (pair, j)) ->
    VpoolKeeper.snapshots k1 !! (pair, c) = Some s ->
    VpoolTypes.TimestampMs s <= VpoolKeeper.lowerLimit ctx lookbackInterval ->
    VpoolKeeper.calcTwap k1 ctx pair option dir amount lookbackInterval
    = VpoolKeeper.calcTwap k2 ctx pair option dir amount lookbackInterval.
Proof.
  intros k1 k2 ctx pair option dir amount lookbackInterval latest c s
         Hc1 Hc2 Hlatest Hle Hagree Hs Hclip.
  unfold VpoolKeeper.calcTwap. rewrite Hc1, Hc2.
  rewrite (of_uint64_small _ Hlatest).
  rewrite (twapLoop_agree k1 k2 pair _ _ (N.to_nat c) s);
    [reflexivity| |exact Hclip|lia|].
  - rewrite N2Nat.id. exact Hs.
  - intros m Hm. apply Hagree. lia.
Qed.

Lemma calcTwap_ignores_older_snapshots_witness :
  VpoolKeeper.calcTwap
    (Fixtures.testKeeper Fixtures.spotSnapshots) (Fixtures.ctxAtMilli 30)
    Fixtures.btcNusd VpoolTypes.TwapCalcOption_SPOT
    VpoolTypes.Direction_ADD_TO_POOL Dec.ZeroDec (20 * Time.Millisecond)
  = VpoolKeeper.calcTwap
      (VpoolKeeper.saveSnapshot
         (Fixtures.testKeeper Fixtures.spotSnapshots) Fixtures.btcNusd 0
         (Fixtures.snapshot (Dec.NewDec 1) (Dec.NewDec 7) 5 0))
      (Fixtures.ctxAtMilli 30)
      Fixtures.btcNusd VpoolTypes.TwapCalcOption_SPOT
      VpoolTypes.Direction_ADD_TO_POOL Dec.ZeroDec (20 * Time.Millisecond).
Proof.
  apply (calcTwap_ignores_older_snapshots
           _ _ _ _ _ _ _ _ 3%N 1%N
           (Fixtures.snapshot (Dec.NewDec 90) (Dec.NewDec 10) 10 1)).
  - vm_compute. reflexivity.
  - vm_compute. reflexivity.
  - vm_compute. reflexivity.
  - vm_compute. discriminate.
  - intros j Hj.
    assert (j = 1 \/ j = 2 \/ j = 3)%N as [->|[->| ->]] by lia;
      vm_compute; reflexivity.
  - vm_compute. reflexivity.
  - vm_compute. discriminate.
Defined.

Lemma elapsed_not_negative (lowerBound : Z)
    (hist : list VpoolTypes.ReserveSnapshot) :
  forall prev : Z,
    TwapSpec.nonDecreasing hist ->
    TwapSpec.small lowerBound ->
    TwapSpec.small prev ->
    Forall (fun s => TwapSpec.small (VpoolTypes.TimestampMs s)) hist ->
    lowerBound <= prev ->
    (forall s, head hist = Some s -> VpoolTypes.TimestampMs s <= prev) ->
    Forall (fun e => 0 <= e)
           (TwapSpec.elapsed lowerBound prev
                             (TwapSpec.visited lowerBound hist)).
Proof.
  induction hist as [|s rest IH];
    intros prev Hsorted Hlb Hprev Hsmall Hle Hhead; [constructor|].
  inversion Hsmall as [|? ? Hs Hrest]; subst.
  specialize (Hhead s eq_refl). destruct Hsorted as [Hnext Hsorted].
  cbn [TwapSpec.visited].
  destruct (Z.leb_spec (VpoolTypes.TimestampMs s) lowerBound) as [Hclip|Hnew];
    cbn [TwapSpec.elapsed]; unfold TwapSpec.elapsedMs.
  - destruct (Z.leb_spec (VpoolTypes.TimestampMs s) lowerBound); [|lia].
    rewrite sub_small by assumption. repeat constructor. lia.
  - destruct (Z.leb_spec (VpoolTypes.TimestampMs s) lowerBound); [lia|].
    rewrite sub_small by assumption. constructor; [lia|].
    apply IH; try assumption; [lia|].
    intros s' Hs'. destruct rest; [discriminate|].
    injection Hs' as <-. exact Hnext.
Qed.

Lemma weightedSum_between (lo hi : Z) (prices : list Dec.t) :
  forall es : list Z,
    length prices = length es ->
    Forall (fun p => lo <= Dec.i p <= hi) prices ->
    Forall (fun e => 0 <= e) es ->
    lo * TwapSpec.sumZ es <= Dec.i (TwapSpec.weightedSum prices es)
    <= hi * TwapSpec.sumZ es.
Proof.
  induction prices as [|p ps IH]; intros es Hlen Hprices Hes.
  - destruct es; [cbn; lia|discriminate].
  - destruct es as [|e es']; [discriminate|].
    inversion Hprices as [|? ? Hp Hps]; subst.
    inversion Hes as [|? ? He Hes']; subst.
    injection Hlen as Hlen.
    specialize (IH es' Hlen Hps Hes').
    cbn [TwapSpec.weightedSum TwapSpec.sumZ].
    unfold Dec.Add, Dec.MulInt64. cbn [Dec.i]. nia.
Qed.

Lemma quot_between (lo hi x total : Z) :
  0 < total -> lo * total <= x <= hi * total ->
  lo <= Z.quot x total <= hi.
Proof.
  intros Hpos Hx.
  pose proof (Z.quot_rem' x total) as Hqr.
  pose proof (Z.rem_bound_abs x total ltac:(lia)) as Hr.
  nia.
Qed.

(** X9.  The TWAP lies between the prices it averages.  On a gapless
    history with timestamps that do not decrease with the counter and a
    latest snapshot strictly earlier than the block time, with a lookback of
    at least one millisecond and millisecond values far from the int64
    bounds, calcTwap returns a value that is at least every lower bound and
    at most every upper bound of the prices of the visited snapshots; when
    these prices are all equal it returns that price. *)
Theorem calcTwap_between_prices :
  forall (k : VpoolKeeper.Keeper) (ctx : VpoolKeeper.Context) (pair : string)
         (option : VpoolTypes.TwapCalcOption) (dir : VpoolTypes.Direction)
         (amount : Dec.t) (lookbackInterval : Time.Duration)
         (latest : N) (hist : list VpoolTypes.ReserveSnapshot)
         (prices : list Dec.t) (newest : VpoolTypes.ReserveSnapshot)
         (lo hi : Dec.t),
    VpoolKeeper.getSnapshotCounter k pair = Some latest ->
    (latest < 2 ^ 63)%N ->
    TwapSpec.history k pair (S (N.to_nat latest)) = map Some hist ->
    map (fun s =>
           VpoolKeeper.getPriceWithSnapshot
             s {| VpoolKeeper.optPair := pair;
                  VpoolKeeper.twapCalcOption := option;
                  VpoolKeeper.direction := dir;
                  VpoolKeeper.assetAmount := amount |})
        (TwapSpec.visited (VpoolKeeper.lowerLimit ctx lookbackInterval) hist)
    = map Ok prices ->
    Time.Millisecond <= lookbackInterval <= Int64.max_signed ->
    head hist = Some newest ->
    VpoolTypes.TimestampMs newest
    < Time.UnixMilli (VpoolKeeper.BlockTime ctx) ->
    TwapSpec.nonDecreasing hist ->
    TwapSpec.small (VpoolKeeper.BlockTime ctx / 1000000) ->
    TwapSpec.small
      ((VpoolKeeper.BlockTime ctx - lookbackInterval) / 1000000) ->
    Forall (fun s => TwapSpec.small (VpoolTypes.TimestampMs s)) hist ->
    Forall (fun p => Dec.i lo <= Dec.i p <= Dec.i hi) prices ->
    exists twap : Dec.t,
      VpoolKeeper.calcTwap k ctx pair option dir amount lookbackInterval
      = Ok twap /\
      Dec.i lo <= Dec.i twap <= Dec.i hi.
Proof.
  intros k ctx pair option dir amount lookbackInterval latest hist prices
         newest lo hi Hcounter Hlatest Hhist Hprices Hlook Hhead Hnewest
         Hsorted Hnow Hlb Hsmall Hbounds.
  destruct (lowerLimit_before_block_time ctx lookbackInterval Hlook Hnow Hlb)
    as (Hn & Hb & Hlt).
  set (lowerBound := VpoolKeeper.lowerLimit ctx lookbackInterval) in *.
  set (now := Time.UnixMilli (VpoolKeeper.BlockTime ctx)) in *.
  assert (Hsmall_now : TwapSpec.small now) by (rewrite Hn; exact Hnow).
  assert (Hsmall_lb : TwapSpec.small lowerBound) by (rewrite Hb; exact Hlb).
  destruct (last hist) as [oldest|] eqn:Hlast;
    [|apply last_None in Hlast; subst hist; discriminate].
  pose proof (sum_elapsed_nonDecreasing lowerBound hist now oldest Hlast
                Hsorted Hsmall_lb Hsmall_now Hsmall) as Hsum.
  assert (Hold : VpoolTypes.TimestampMs oldest
                 <= VpoolTypes.TimestampMs newest).
  { destruct hist as [|s rest]; [discriminate|].
    injection Hhead as ->. exact (nonDecreasing_last_le _ _ _ Hsorted Hlast). }
  assert (Hnonneg :
    Forall (fun e => 0 <= e)
           (TwapSpec.elapsed lowerBound now
                             (TwapSpec.visited lowerBound hist))).
  { apply elapsed_not_negative; try assumption; [lia|].
    intros s Hs. rewrite Hhead in Hs. injection Hs as <-. lia. }
  assert (Hlen : length prices
                 = length (TwapSpec.elapsed lowerBound now
                             (TwapSpec.visited lowerBound hist))).
  { apply (f_equal (@length _)) in Hprices. rewrite !length_map in Hprices.
    rewrite <- Hprices. clear. generalize now.
    induction (TwapSpec.visited lowerBound hist) as [|s l IH]; intros prev;
      cbn [TwapSpec.elapsed length]; [reflexivity|].
    f_equal. apply IH. }
  pose proof (weightedSum_between (Dec.i lo) (Dec.i hi) prices _ Hlen Hbounds
                                  Hnonneg) as Hw.
  rewrite Hsum in Hw.
  rewrite (calcTwap_as_walk _ _ _ _ _ _ _ _ _ _ Hcounter Hlatest Hhist
                            Hprices).
  fold lowerBound now. unfold TwapSpec.totalMs. rewrite Hsum.
  rewrite wrap_id
    by (unfold TwapSpec.small, Int64.in_range, Int64.min_signed,
          Int64.max_signed in *; lia).
  unfold Dec.QuoInt64.
  destruct (Z.eqb_spec
              (now - Z.max lowerBound (VpoolTypes.TimestampMs oldest)) 0);
    [lia|].
  eexists. split; [reflexivity|]. cbn [Dec.i].
  apply quot_between; [lia|exact Hw].
Qed.

Lemma calcTwap_between_prices_witness :
  exists twap : Dec.t,
    VpoolKeeper.calcTwap
      (Fixtures.testKeeper Fixtures.spotSnapshots) (Fixtures.ctxAtMilli 35)
      Fixtures.btcNusd VpoolTypes.TwapCalcOption_SPOT
      VpoolTypes.Direction_ADD_TO_POOL Dec.ZeroDec (24 * Time.Millisecond)
    = Ok twap /\
    Dec.i (Dec.mk 8500000000000000000) <= Dec.i twap
    <= Dec.i (Dec.mk 9500000000000000000).
Proof.
  apply (calcTwap_between_prices
           (Fixtures.testKeeper Fixtures.spotSnapshots)
           (Fixtures.ctxAtMilli 35) Fixtures.btcNusd
           VpoolTypes.TwapCalcOption_SPOT VpoolTypes.Direction_ADD_TO_POOL
           Dec.ZeroDec (24 * Time.Millisecond) 3%N
           [ Fixtures.snapshot (Dec.NewDec 95) (Dec.NewDec 10) 30 3;
             Fixtures.snapshot (Dec.NewDec 85) (Dec.NewDec 10) 20 2;
             Fixtures.snapshot (Dec.NewDec 90) (Dec.NewDec 10) 10 1;
             Fixtures.snapshot Dec.ZeroDec Dec.ZeroDec 0 0 ]
           [ Dec.mk 9500000000000000000; Dec.mk 8500000000000000000;
             Dec.NewDec 9 ]
           (Fixtures.snapshot (Dec.NewDec 95) (Dec.NewDec 10) 30 3)).
  - vm_compute. reflexivity.
  - vm_compute. reflexivity.
  - vm_compute. reflexivity.
  - vm_compute. reflexivity.
  - vm_compute. split; discriminate.
  - reflexivity.
  - vm_compute. reflexivity.
  - cbn. lia.
  - vm_compute. split; [discriminate|reflexivity].
  - vm_compute. split; [discriminate|reflexivity].
  - repeat constructor; vm_compute; discriminate.
  - repeat constructor; vm_compute; discriminate.
Defined.

(** ** More on margin *)

Section MarginEffects.
Import PerpKeeper.

Variable Bank : Type.
Variable AccAddress : Type.
Variable AccAddressFromBech32 : string -> Ret AccAddress.
Variable AccAddressString : AccAddress -> string.
Variable GetModuleAddress : string -> AccAddress.
Variable SendCoinsFromAccountToModule :
  Bank -> AccAddress -> string -> Coin -> Bank * option Error.
Variable SendCoinsFromModuleToAccount :
  Bank -> string -> AccAddress -> Coin -> Bank * option Error.
Variable StableDenom : string.
Variable NewTokenPairFromStr : string -> Ret string.
Variable CalcRemainMarginWithFundingPayment :
  State Bank -> Position -> Dec.t -> Ret Remaining.
Variable calcFreeCollateral : State Bank -> Position -> Dec.t -> Ret Z.

Let setup := messageSetup Bank AccAddress AccAddressFromBech32 StableDenom
                          NewTokenPairFromStr.
Let remove := PerpKeeper.RemoveMargin
                Bank AccAddress AccAddressFromBech32 AccAddressString
                GetModuleAddress SendCoinsFromModuleToAccount StableDenom
                NewTokenPairFromStr CalcRemainMarginWithFundingPayment
                calcFreeCollateral.
Let add := PerpKeeper.AddMargin
             Bank AccAddress AccAddressFromBech32 AccAddressString
             GetModuleAddress SendCoinsFromAccountToModule StableDenom
             NewTokenPairFromStr.

Lemma messageSetup_inv (st : State Bank) (sender tokenPair : string)
    (margin : Coin) (trader : AccAddress) (pair : string) :
  setup st sender tokenPair margin = Ok (trader, pair) ->
  AccAddressFromBech32 sender = Val trader /\
  Denom margin = StableDenom /\
  0 < Amount margin /\
  NewTokenPairFromStr tokenPair = Val pair /\
  VpoolKeeper.ExistsPool (vpool st) pair = true.
Proof.
  unfold setup, messageSetup, requireVpool.
  destruct (AccAddressFromBech32 sender) as [t|]; cbn [ofRet bind];
    [|discriminate].
  destruct (String.eqb_spec (Denom margin) StableDenom); cbn [negb];
    [|discriminate].
  destruct (Z.leb_spec (Amount margin) 0); [discriminate|].
  destruct (NewTokenPairFromStr tokenPair) as [tp|]; cbn [ofRet bind];
    [|discriminate].
  destruct (VpoolKeeper.ExistsPool (vpool st) tp) eqn:Hpool; cbn [negb];
    [|discriminate].
  intros [= -> ->]. repeat split; try assumption; lia.
Qed.

(** X10.  A successful AddMargin had the stable denomination, a strictly
    positive amount and an existing pool and position; it writes that
    position with the margin raised by the amount and nothing else in the
    position store, leaves the pools alone, and appends two events: a
    transfer of the coin that names the vault as sender and the trader as
    receiver, and a margin change with a funding payment of zero. *)
Theorem AddMargin_success :
  forall (st st' : State Bank) (msg : MsgAddMargin)
         (resp : MsgAddMarginResponse),
    add st msg = (st', Ok resp) ->
    Denom (addMargin msg) = StableDenom /\
    0 < Amount (addMargin msg) /\
    exists (trader : AccAddress) (pair : string) (position : Position),
      AccAddressFromBech32 (addSender msg) = Val trader /\
      NewTokenPairFromStr (addTokenPair msg) = Val pair /\
      VpoolKeeper.ExistsPool (vpool st) pair = true /\
      positions st !! (pair, AccAddressString trader) = Some position /\
      positions st'
      = <[(pair, AccAddressString trader) :=
            setMargin position
                      (Dec.Add (Margin position)
                               (ToDec (Amount (addMargin msg))))]>
          (positions st) /\
      vpool st' = vpool st /\
      events st'
      = events st
        ++ [ Transfer {| Denom := StableDenom;
                         Amount := Amount (addMargin msg) |}
                      (AccAddressString (GetModuleAddress VaultModuleAccount))
                      (AccAddressString trader);
             MarginChange (AccAddressString trader) pair
                          (Amount (addMargin msg)) Dec.ZeroDec ].
Proof.
  intros st st' msg resp. unfold add, PerpKeeper.AddMargin. fold setup.
  destruct (setup st (addSender msg) (addTokenPair msg) (addMargin msg))
    as [[trader pair]| |] eqn:Hsetup; try discriminate.
  apply messageSetup_inv in Hsetup as (Htrader & Hdenom & Hpos & Hpair & Hpool).
  cbn [fst snd]. unfold PositionsGet.
  destruct (positions st !! (pair, AccAddressString trader))
    as [position|] eqn:Hget; [|discriminate].
  destruct (SendCoinsFromAccountToModule _ _ _ _) as [b [e|]];
    [discriminate|].
  intros [= <- _]. split; [exact Hdenom|]. split; [exact Hpos|].
  exists trader, pair, position. cbn. rewrite <- app_assoc.
  repeat split; assumption.
Qed.

(** X11.  A failing AddMargin leaves the position store, the pools and the
    events as they were: the transfer comes before the write. *)
Theorem AddMargin_failure_state :
  forall (st st' : State Bank) (msg : MsgAddMargin) (e : Error),
    add st msg = (st', Err e) ->
    positions st' = positions st /\
    vpool st' = vpool st /\
    events st' = events st.
Proof.
  intros st st' msg e. unfold add, PerpKeeper.AddMargin.
  destruct (messageSetup _ _ _ _ _ _ _ _ _) as [[trader pair]| |];
    [|intros [= <- _]; repeat split|discriminate].
  cbn [fst snd].
  destruct (PositionsGet _ _ _ _) as [position| |];
    [|intros [= <- _]; repeat split|discriminate].
  destruct (SendCoinsFromAccountToModule _ _ _ _) as [b [e'|]];
    [|discriminate].
  intros [= <- _]. repeat split.
Qed.

(** X12.  A successful RemoveMargin had the stable denomination, a strictly
    positive amount and an existing pool and position; the remaining margin
    computed for the negated amount has no bad debt and the free collateral
    of the updated position is not negative; it writes that position with
    the remaining margin and the latest cumulative premium fraction and
    nothing else in the position store, and answers with the coin and the
    funding payment. *)
Theorem RemoveMargin_success :
  forall (st st' : State Bank) (msg : MsgRemoveMargin)
         (resp : MsgRemoveMarginResponse),
    remove st msg = (st', Ok resp) ->
    Denom (msgMargin msg) = StableDenom /\
    0 < Amount (msgMargin msg) /\
    exists (trader : AccAddress) (pair : string) (position : Position)
           (remaining : Remaining) (freeCollateral : Z),
      let written :=
        setLastUpdateCumulativePremiumFraction
          (setMargin position (remMargin remaining))
          (LatestCumulativePremiumFraction remaining) in
      VpoolKeeper.ExistsPool (vpool st) pair = true /\
      positions st !! (pair, AccAddressString trader) = Some position /\
      CalcRemainMarginWithFundingPayment
        st position (ToDec (- Amount (msgMargin msg))) = Val remaining /\
      Dec.i (BadDebt remaining) = 0 /\
      calcFreeCollateral st written (FundingPayment remaining)
      = Val freeCollateral /\
      0 <= freeCollateral /\
      positions st'
      = <[(pair, AccAddressString trader) := written]> (positions st) /\
      vpool st' = vpool st /\
      resp = {| MarginOut := {| Denom := StableDenom;
                                Amount := Amount (msgMargin msg) |};
                respFundingPayment := FundingPayment remaining |} /\
      events st'
      = events st
        ++ [ Transfer {| Denom := StableDenom;
                         Amount := Amount (msgMargin msg) |}
                      (AccAddressString (GetModuleAddress VaultModuleAccount))
                      (AccAddressString trader);
             MarginChange (AccAddressString trader) pair
                          (Amount (msgMargin msg))
                          (FundingPayment remaining) ].
Proof.
  intros st st' msg resp. unfold remove, PerpKeeper.RemoveMargin. fold setup.
  destruct (setup st (Sender msg) (TokenPair msg) (msgMargin msg))
    as [[trader pair]| |] eqn:Hsetup; try discriminate.
  apply messageSetup_inv in Hsetup as (Htrader & Hdenom & Hpos & Hpair & Hpool).
  cbn [fst snd]. unfold PositionsGet.
  destruct (positions st !! (pair, AccAddressString trader))
    as [position|] eqn:Hget; [|discriminate].
  destruct (CalcRemainMarginWithFundingPayment _ _ _) as [remaining|] eqn:Hrem;
    [|discriminate].
  unfold Dec.IsZero.
  destruct (Z.eqb_spec (Dec.i (BadDebt remaining)) 0) as [Hbad|];
    cbn [negb]; [|discriminate].
  destruct (calcFreeCollateral _ _ _) as [freeCollateral|] eqn:Hfree;
    [|discriminate].
  destruct (Z.leb_spec 0 freeCollateral); cbn [negb]; [|discriminate].
  cbn [bank PositionsSet].
  destruct (SendCoinsFromModuleToAccount _ _ _ _) as [b [e|]];
    [discriminate|].
  intros [= <- <-]. split; [exact Hdenom|]. split; [exact Hpos|].
  exists trader, pair, position, remaining, freeCollateral.
  cbn. rewrite <- app_assoc. repeat split; assumption.
Qed.

(** X13.  With a sender that parses, AddMargin and RemoveMargin reject a
    margin of another denomination with the denomination error, whatever
    the amount, and a margin of the stable denomination that is zero or
    negative with the amount error; the state is as it was. *)
Theorem margin_validation :
  forall (st : State Bank) (sender tokenPair : string) (margin : Coin)
         (trader : AccAddress),
    AccAddressFromBech32 sender = Val trader ->
    let addMsg :=
      {| addSender := sender; addTokenPair := tokenPair;
         addMargin := margin |} in
    let removeMsg :=
      {| Sender := sender; TokenPair := tokenPair; msgMargin := margin |} in
    (Denom margin <> StableDenom ->
     add st addMsg = (st, Err ErrInvalidMarginDenom) /\
     remove st removeMsg = (st, Err ErrInvalidMarginDenom)) /\
    (Denom margin = StableDenom -> Amount margin <= 0 ->
     add st addMsg = (st, Err (ErrMarginNotPositive (Amount margin))) /\
     remove st removeMsg = (st, Err (ErrMarginNotPositive (Amount margin)))).
Proof.
  intros st sender tokenPair margin trader Htrader addMsg removeMsg.
  unfold add, remove, PerpKeeper.AddMargin, PerpKeeper.RemoveMargin,
    messageSetup.
  subst addMsg removeMsg. cbn [addSender addTokenPair addMargin Sender
                                TokenPair msgMargin].
  rewrite Htrader. cbn [ofRet bind]. split.
  - intros Hdenom.
    destruct (String.eqb_spec (Denom margin) StableDenom); [contradiction|].
    cbn [negb]. split; reflexivity.
  - intros Hdenom Hamount.
    destruct (String.eqb_spec (Denom margin) StableDenom); [|contradiction].
    cbn [negb]. destruct (Z.leb_spec (Amount margin) 0); [|lia].
    split; reflexivity.
Qed.

End MarginEffects.

(** X14.  GetMarginRatio on a position of a size other than zero whose
    notional comes out as zero panics on the division, once the remaining
    margin is computed; the errors of the two computations come back as they
    are. *)
Theorem GetMarginRatio_zero_notional :
  forall (Bank : Type)
         (CalcRemainMarginWithFundingPayment :
            PerpKeeper.State Bank -> PerpKeeper.Position -> Dec.t
            -> Ret PerpKeeper.Remaining)
         (getPreferencePositionNotionalAndUnrealizedPnL :
            PerpKeeper.State Bank -> PerpKeeper.Position
            -> PerpKeeper.PnLPreferenceOption -> Ret (Dec.t * Dec.t))
         (st : PerpKeeper.State Bank) (position : PerpKeeper.Position),
    let ratio :=
      PerpKeeper.GetMarginRatio
        Bank CalcRemainMarginWithFundingPayment
        getPreferencePositionNotionalAndUnrealizedPnL st position in
    Dec.i (PerpKeeper.Size_ position) <> 0 ->
    (forall e,
        getPreferencePositionNotionalAndUnrealizedPnL
          st position PerpKeeper.PnLPreferenceOption_MAX = Fail e ->
        ratio = Err e) /\
    (forall unrealizedPnL positionNotional,
        getPreferencePositionNotionalAndUnrealizedPnL
          st position PerpKeeper.PnLPreferenceOption_MAX
        = Val (unrealizedPnL, positionNotional) ->
        (forall e,
            CalcRemainMarginWithFundingPayment st position unrealizedPnL
            = Fail e ->
            ratio = Err e) /\
        (forall remaining,
            CalcRemainMarginWithFundingPayment st position unrealizedPnL
            = Val remaining ->
            Dec.i positionNotional = 0 ->
            ratio = Panic PanicDivisionByZero)).
Proof.
  intros Bank calc pref st position ratio Hsize. subst ratio.
  unfold PerpKeeper.GetMarginRatio, Dec.IsZero.
  destruct (Z.eqb_spec (Dec.i (PerpKeeper.Size_ position)) 0);
    [contradiction|].
  split.
  - intros e ->. reflexivity.
  - intros pnl notional ->. cbn [ofRet bind fst snd]. split.
    + intros e ->. reflexivity.
    + intros remaining -> Hzero. cbn [ofRet bind]. unfold Dec.Quo.
      rewrite Hzero. reflexivity.
Qed.

Lemma GetMarginRatio_zero_notional_witness :
  PerpKeeper.GetMarginRatio
    (gmap string Z)
    (PerpMemory.CalcRemainMarginWithFundingPayment Dec.ZeroDec)
    (fun _ _ _ => Val (Dec.ZeroDec, Dec.ZeroDec))
    (PerpMemory.state 0) (PerpMemory.position (Dec.NewDec 100))
  = Panic PanicDivisionByZero.
Proof.
  apply (proj2 (GetMarginRatio_zero_notional
                  (gmap string Z)
                  (PerpMemory.CalcRemainMarginWithFundingPayment Dec.ZeroDec)
                  (fun _ _ _ => Val (Dec.ZeroDec, Dec.ZeroDec))
                  (PerpMemory.state 0) (PerpMemory.position (Dec.NewDec 100))
                  ltac:(vm_compute; discriminate))
               Dec.ZeroDec Dec.ZeroDec eq_refl)
    with (remaining :=
            {| PerpKeeper.remMargin := Dec.NewDec 100;
               PerpKeeper.BadDebt := Dec.ZeroDec;
               PerpKeeper.FundingPayment := Dec.ZeroDec;
               PerpKeeper.LatestCumulativePremiumFraction := Dec.ZeroDec |}).
  - vm_compute. reflexivity.
  - reflexivity.
Defined.

(** X15.  requireMoreMarginRatio passes with the flag exactly when the
    margin ratio is at least the base ratio, and without the flag exactly
    when it is below: for any two ratios exactly one of the two calls
    passes. *)
Theorem requireMoreMarginRatio_complementary :
  forall marginRatio baseMarginRatio : Dec.t,
    (PerpKeeper.requireMoreMarginRatio marginRatio baseMarginRatio true = None
     <-> Dec.i baseMarginRatio <= Dec.i marginRatio) /\
    (PerpKeeper.requireMoreMarginRatio marginRatio baseMarginRatio false = None
     <-> Dec.i marginRatio < Dec.i baseMarginRatio) /\
    (PerpKeeper.requireMoreMarginRatio marginRatio baseMarginRatio true = None
     <-> PerpKeeper.requireMoreMarginRatio marginRatio baseMarginRatio false
         <> None).
Proof.
  intros r b.
  unfold PerpKeeper.requireMoreMarginRatio, Dec.GTE, Dec.LT.
  destruct (Z.leb_spec (Dec.i b) (Dec.i r));
    destruct (Z.ltb_spec (Dec.i r) (Dec.i b)); cbn [negb];
    try lia; repeat split; intros; try lia; congruence.
Qed.

Lemma requireMoreMarginRatio_complementary_witness :
  PerpKeeper.requireMoreMarginRatio
    (Dec.mk 62500000000000000) (Dec.mk 62500000000000000) true = None.
Proof.
  apply (proj1 (requireMoreMarginRatio_complementary
                  (Dec.mk 62500000000000000) (Dec.mk 62500000000000000))).
  cbn. lia.
Defined.

Lemma pair_with_snd {A B : Type} (x : A * B) (b : B) :
  snd x = b -> x = (fst x, b).
Proof. destruct x. cbn. intros ->. reflexivity. Qed.

Lemma AddMargin_success_witness :
  PerpKeeper.Denom (PerpKeeper.addMargin (PerpMemory.addMsg 10))
  = PerpMemory.StableDenom /\
  0 < PerpKeeper.Amount (PerpKeeper.addMargin (PerpMemory.addMsg 10)).
Proof.
  pose proof
    (AddMargin_success
       (gmap string Z) string PerpMemory.AccAddressFromBech32
       (fun a => a) (fun account => account)
       (fun b trader module coin => PerpMemory.transfer b trader module coin)
       PerpMemory.StableDenom PerpMemory.NewTokenPairFromStr
       (PerpKeeper.withBank (gmap string Z) (PerpMemory.state 0)
                            {[ PerpMemory.alice := 50 ]})
       (fst (PerpMemory.AddMargin
               (PerpKeeper.withBank (gmap string Z) (PerpMemory.state 0)
                                    {[ PerpMemory.alice := 50 ]})
               (PerpMemory.addMsg 10)))
       (PerpMemory.addMsg 10) PerpKeeper.mkMsgAddMarginResponse
       ltac:(apply pair_with_snd; vm_compute; reflexivity))
    as (Hdenom & Hpos & _).
  split; assumption.
Defined.

Lemma AddMargin_failure_state_witness :
  PerpKeeper.positions
    (fst (PerpMemory.AddMargin (PerpMemory.state 0) (PerpMemory.addMsg 10)))
  = PerpKeeper.positions (PerpMemory.state 0).
Proof.
  apply (proj1 (AddMargin_failure_state
                  (gmap string Z) string PerpMemory.AccAddressFromBech32
                  (fun a => a) (fun account => account)
                  (fun b trader module coin =>
                     PerpMemory.transfer b trader module coin)
                  PerpMemory.StableDenom PerpMemory.NewTokenPairFromStr
                  (PerpMemory.state 0)
                  (fst (PerpMemory.AddMargin (PerpMemory.state 0)
                                             (PerpMemory.addMsg 10)))
                  (PerpMemory.addMsg 10)
                  (ErrExternal "insufficient funds")
                  ltac:(apply pair_with_snd; vm_compute; reflexivity))).
Defined.

Lemma RemoveMargin_success_witness :
  PerpKeeper.Denom (PerpKeeper.msgMargin (PerpMemory.removeMsg 10))
  = PerpMemory.StableDenom /\
  0 < PerpKeeper.Amount (PerpKeeper.msgMargin (PerpMemory.removeMsg 10)).
Proof.
  pose proof
    (RemoveMargin_success
       (gmap string Z) string PerpMemory.AccAddressFromBech32
       (fun a => a) (fun account => account)
       (fun b module trader coin => PerpMemory.transfer b module trader coin)
       PerpMemory.StableDenom PerpMemory.NewTokenPairFromStr
       (PerpMemory.CalcRemainMarginWithFundingPayment Dec.ZeroDec)
       (PerpMemory.calcFreeCollateral 0)
       (PerpMemory.state 50)
       (fst (PerpMemory.RemoveMargin 0 (PerpMemory.state 50)
                                     (PerpMemory.removeMsg 10)))
       (PerpMemory.removeMsg 10)
       {| PerpKeeper.MarginOut :=
            {| PerpKeeper.Denom := PerpMemory.StableDenom;
               PerpKeeper.Amount := 10 |};
          PerpKeeper.respFundingPayment := Dec.ZeroDec |}
       ltac:(apply pair_with_snd; vm_compute; reflexivity))
    as (Hdenom & Hpos & _).
  split; assumption.
Defined.

Lemma margin_validation_witness :
  PerpMemory.RemoveMargin 0 (PerpMemory.state 50) (PerpMemory.removeMsg (-3))
  = (PerpMemory.state 50, Err (ErrMarginNotPositive (-3))).
Proof.
  apply (proj2 (margin_validation
                  (gmap string Z) string PerpMemory.AccAddressFromBech32
                  (fun a => a) (fun account => account)
                  (fun b trader module coin =>
                     PerpMemory.transfer b trader module coin)
                  (fun b module trader coin =>
                     PerpMemory.transfer b module trader coin)
                  PerpMemory.StableDenom PerpMemory.NewTokenPairFromStr
                  (PerpMemory.CalcRemainMarginWithFundingPayment Dec.ZeroDec)
                  (PerpMemory.calcFreeCollateral 0)
                  (PerpMemory.state 50) PerpMemory.alice Fixtures.btcNusd
                  {| PerpKeeper.Denom := PerpMemory.StableDenom;
                     PerpKeeper.Amount := -3 |}
                  PerpMemory.alice eq_refl)
               eq_refl ltac:(vm_compute; discriminate)).
Defined.
